(** * plyflatten: the Python wrapper around the native rasterizer

    A shallow embedding of [plyflatten/rasterization.py]: the two functions
    [plyflatten] and [plyflatten_from_plyfiles_list], the numpy operations
    they call, and the ctypes call into [libplyflatten.so].

    Conventions of the model.
    - A finite floating-point value [Fin q] is the rational it denotes.  The
      values of a format are those its rounding leaves unchanged
      ([is_float64], [is_float32]); addition, subtraction, multiplication and
      division round their exact result to binary64, to the nearest value
      with ties to even, with gradual underflow and overflow to an infinity.
      Infinities and not-a-number are explicit values, with the IEEE rules for
      them; signed zeros are not distinguished.
    - A numpy array is a header (buffer address, dtype, shape) over a buffer
      of the store; an array's elements are listed in row-major order.
      Strides and memory order are not modelled, and memory is unbounded:
      [np.zeros] refuses a negative dimension only.  The limit numpy puts on
      the number of bytes of an array is [np_addressable], a hypothesis of
      the statements that follow a call past its allocations.
    - [xsize] and [ysize] are Python integers; [radius] is an integer or a
      float, since ctypes tells them apart.
    - Python code runs in a state-and-exception monad over the store, the
      argument types declared for [lib.rasterize_cloud], and the log of the
      calls made into the native library.  The log holds the arguments as
      Python passed them; the C routine receives their conversions
      ([c_arguments]). *)

From Stdlib Require Import ZArith QArith Qround Qpower Lqa Lia SpecFloat.
From stdpp Require Import base gmap strings list.

(** ** Floating-point values *)

Inductive pyfloat : Type :=
  | Fin (q : Q)
  | PosInf
  | NegInf
  | NaN.

(** The sign of a rational is the sign of its numerator. *)
Definition Qpos_b (q : Q) : bool := (0 <? Qnum q)%Z.
Definition Qneg_b (q : Q) : bool := (Qnum q <? 0)%Z.
Definition Qzero_b (q : Q) : bool := (Qnum q =? 0)%Z.

(** The infinity whose sign is that of [q], not-a-number when [q] is zero. *)
Definition inf_of_sign (q : Q) : pyfloat :=
  if Qpos_b q then PosInf else if Qneg_b q then NegInf else NaN.

(** *** Rounding to a binary format *)

Definition pow2 (e : Z) : Q := 2 ^ e.

(** The integer [e] with [2^e <= a < 2^(e+1)], for a positive [a]. *)
Definition Qlog2 (a : Q) : Z :=
  let k := (Z.log2 (Qnum a) - Z.log2 (Zpos (Qden a)))%Z in
  if Qle_bool (pow2 k) a then k else (k - 1)%Z.

(** Rounding to the nearest integer, ties to even. *)
Definition rne (x : Q) : Z :=
  let f := Qfloor x in
  match Qcompare (x - inject_Z f) (1 # 2) with
  | Lt => f
  | Gt => (f + 1)%Z
  | Eq => if Z.even f then f else (f + 1)%Z
  end.

(** The exponent of the last place of a positive [a] in the format of [prec]
    bits of precision and exponents below [emax] (the least exponent is
    [3 - emax - prec]), and [a] rounded to that place. *)
Definition ulp_exp (prec emax : Z) (a : Q) : Z :=
  Z.max (Qlog2 a - (prec - 1)) (3 - emax - prec).

Definition round_val (prec emax : Z) (a : Q) : Q :=
  inject_Z (rne (a / pow2 (ulp_exp prec emax a))) * pow2 (ulp_exp prec emax a).

Definition round_pos (prec emax : Z) (a : Q) : option Q :=
  let v := round_val prec emax a in
  if Qle_bool (pow2 emax) v then None else Some (Qred v).

(** Rounding to nearest, ties to even; a result of magnitude [2^emax] or more
    is an infinity. *)
Definition round_to (prec emax : Z) (q : Q) : pyfloat :=
  match Qnum q with
  | Z0 => Fin 0
  | Zpos _ => match round_pos prec emax q with
              | Some v => Fin v
              | None => PosInf
              end
  | Zneg _ => match round_pos prec emax (- q) with
              | Some v => Fin (- v)
              | None => NegInf
              end
  end.

(** binary64 (Python's [float], [np.float64], C's [double]) and binary32
    ([np.float32], C's [float]). *)
Definition b64 : Q -> pyfloat := round_to 53 1024.
Definition b32 : Q -> pyfloat := round_to 24 128.

(** Conversion of a value to a format. *)
Definition float64_of (a : pyfloat) : pyfloat :=
  match a with
  | Fin q => b64 q
  | _ => a
  end.

Definition float32_of (a : pyfloat) : pyfloat :=
  match a with
  | Fin q => b32 q
  | _ => a
  end.

(** The values of a format. *)
Definition is_float64 (a : pyfloat) : Prop := float64_of a = a.
Definition is_float32 (a : pyfloat) : Prop := float32_of a = a.

(** The rational denoted by the double nearest to [q]. *)
Definition double (q : Q) : Q :=
  match b64 q with
  | Fin v => v
  | _ => 0
  end.

(** The value of a float of the Standard Library's specification of IEEE 754
    arithmetic ([SpecFloat]), against which the rounding above is checked on
    examples. *)
Definition spec_float_value (x : spec_float) : pyfloat :=
  match x with
  | S754_zero _ => Fin 0
  | S754_infinity false => PosInf
  | S754_infinity true => NegInf
  | S754_nan => NaN
  | S754_finite s m e =>
      Fin (Qred ((if s then - inject_Z (Zpos m) else inject_Z (Zpos m)) * pow2 e))
  end.

(** The binary64 float [m * 2^e], for a positive [m]. *)
Definition sf64 (m e : Z) : spec_float := binary_normalize 53 1024 m e false.

(** *** Arithmetic on binary64 values *)

Definition fneg (a : pyfloat) : pyfloat :=
  match a with
  | Fin q => Fin (- q)
  | PosInf => NegInf
  | NegInf => PosInf
  | NaN => NaN
  end.

Definition fadd (a b : pyfloat) : pyfloat :=
  match a, b with
  | NaN, _ | _, NaN => NaN
  | Fin x, Fin y => b64 (x + y)
  | PosInf, NegInf | NegInf, PosInf => NaN
  | PosInf, _ | _, PosInf => PosInf
  | NegInf, _ | _, NegInf => NegInf
  end.

Definition fsub (a b : pyfloat) : pyfloat := fadd a (fneg b).

Definition fmul (a b : pyfloat) : pyfloat :=
  match a, b with
  | NaN, _ | _, NaN => NaN
  | Fin x, Fin y => b64 (x * y)
  | Fin x, PosInf | PosInf, Fin x => inf_of_sign x
  | Fin x, NegInf | NegInf, Fin x => inf_of_sign (- x)
  | PosInf, PosInf | NegInf, NegInf => PosInf
  | PosInf, NegInf | NegInf, PosInf => NegInf
  end.

(** numpy division: a zero divisor yields an infinity or not-a-number (with
    a warning), never an exception. *)
Definition fdiv (a b : pyfloat) : pyfloat :=
  match a, b with
  | NaN, _ | _, NaN => NaN
  | Fin x, Fin y => if Qzero_b y then inf_of_sign x else b64 (x / y)
  | Fin _, (PosInf | NegInf) => Fin 0
  | PosInf, Fin y => if Qneg_b y then NegInf else PosInf
  | NegInf, Fin y => if Qneg_b y then PosInf else NegInf
  | (PosInf | NegInf), (PosInf | NegInf) => NaN
  end.

(** [np.floor] and [np.ceil]: exact, the floor and the ceiling of a double
    being doubles. *)
Definition ffloor (a : pyfloat) : pyfloat :=
  match a with
  | Fin q => Fin (inject_Z (Qfloor q))
  | _ => a
  end.

Definition fceil (a : pyfloat) : pyfloat :=
  match a with
  | Fin q => Fin (inject_Z (Qceiling q))
  | _ => a
  end.

(** [a <= b] on floats; false as soon as one side is not-a-number. *)
Definition fle (a b : pyfloat) : bool :=
  match a, b with
  | NaN, _ | _, NaN => false
  | NegInf, _ | _, PosInf => true
  | Fin x, Fin y => Qle_bool x y
  | _, _ => false
  end.

(** The binary step of [np.amin] / [np.amax]: not-a-number propagates. *)
Definition fmin (a b : pyfloat) : pyfloat :=
  match a, b with
  | NaN, _ | _, NaN => NaN
  | _, _ => if fle a b then a else b
  end.

Definition fmax (a b : pyfloat) : pyfloat :=
  match a, b with
  | NaN, _ | _, NaN => NaN
  | _, _ => if fle a b then b else a
  end.

(** ** Exceptions and results *)

Inductive exn : Type :=
  | ValueError
  | IndexError
  | AttributeError
  | OverflowError
  | ArgumentError
  | OtherException (cls : string).

Inductive result (A : Type) : Type :=
  | Ok (a : A)
  | Err (e : exn).
Arguments Ok {A} a.
Arguments Err {A} e.

(** Python's [int(x)] on a float: truncation toward zero; not-a-number and
    the infinities are refused. *)
Definition py_int (a : pyfloat) : result Z :=
  match a with
  | Fin q => Ok (Z.quot (Qnum q) (Zpos (Qden q)))
  | NaN => Err ValueError
  | PosInf | NegInf => Err OverflowError
  end.

(** A Python number: an [int] or a [float]. *)
Inductive py_num : Type :=
  | PInt (z : Z)
  | PFloat (f : pyfloat).

Coercion PInt : Z >-> py_num.
Bind Scope Z_scope with py_num.

(** ** numpy arrays, the store and the monad *)

Definition loc := positive.

Inductive np_dtype : Type := float32 | float64.

Global Instance np_dtype_eq_dec : EqDecision np_dtype.
Proof. solve_decision. Defined.

(** An array object: a header over a buffer of the store.  A view ([reshape])
    is another header over the same buffer. *)
Record ndarray : Type := mk_ndarray {
  base : loc;
  dtype : np_dtype;
  shape : list Z
}.

(** The arguments of one call of [lib.rasterize_cloud] as Python passed them,
    once ctypes has accepted each of them for its declared type. *)
Record native_call : Type := mk_native_call {
  nc_cloud : ndarray;
  nc_raster : ndarray;
  nc_raster_std : ndarray;
  nc_nb_points : Z;
  nc_nb_extra_columns : Z;
  nc_xoff : pyfloat;
  nc_yoff : pyfloat;
  nc_resolution : pyfloat;
  nc_xsize : Z;
  nc_ysize : Z;
  nc_radius : Z;
  nc_sigma : pyfloat
}.

(** The value of [lib.rasterize_cloud.argtypes] once assigned.  The module
    assigns one tuple only,
    [(ndpointer(c_double, shape1), ndpointer(c_float, shape2),
      ndpointer(c_float, shape2), c_int, c_int, c_double, c_double, c_double,
      c_int, c_int, c_int, c_float)],
    which the two shapes determine. *)
Record argtypes_t : Type := mk_argtypes {
  at_cloud_shape : list Z;
  at_raster_shape : list Z
}.

(** The state: the buffers, the calls made into the native library, and the
    [argtypes] attribute of [lib.rasterize_cloud] ([None] as long as the
    module has not assigned it). *)
Record state : Type := mk_state {
  heap : gmap loc (list pyfloat);
  native_calls : list native_call;
  argtypes : option argtypes_t
}.

Definition M (A : Type) : Type := state -> result A * state.

Definition ret {A} (a : A) : M A := fun s => (Ok a, s).

Definition raise {A} (e : exn) : M A := fun s => (Err e, s).

Definition bind {A B} (m : M A) (k : A -> M B) : M B :=
  fun s =>
    match m s with
    | (Ok a, s') => k a s'
    | (Err e, s') => (Err e, s')
    end.

Definition lift {A} (r : result A) : M A := fun s => (r, s).

Notation "x <- m ;; k" := (bind m (fun x => k))
  (at level 100, m at next level, right associativity).

Fixpoint mapM {A B} (f : A -> M B) (l : list A) : M (list B) :=
  match l with
  | [] => ret []
  | a :: l' => b <- f a ;; bs <- mapM f l' ;; ret (b :: bs)
  end.

(** Store primitives.  A new buffer gets an address not in use. *)
Definition alloc (d : list pyfloat) : M loc :=
  fun s =>
    let l := fresh (dom (heap s)) in
    (Ok l, mk_state (<[l := d]> (heap s)) (native_calls s) (argtypes s)).

Definition load (l : loc) : M (list pyfloat) :=
  fun s => (Ok (default [] (heap s !! l)), s).

Definition store (l : loc) (d : list pyfloat) : M unit :=
  fun s => (Ok tt, mk_state (<[l := d]> (heap s)) (native_calls s) (argtypes s)).

Definition log_native_call (c : native_call) : M unit :=
  fun s => (Ok tt, mk_state (heap s) (native_calls s ++ [c]) (argtypes s)).

(** [lib.rasterize_cloud.argtypes = t] and the reading of the attribute. *)
Definition set_argtypes (t : argtypes_t) : M unit :=
  fun s => (Ok tt, mk_state (heap s) (native_calls s) (Some t)).

Definition get_argtypes : M (option argtypes_t) :=
  fun s => (Ok (argtypes s), s).

(** Number of elements of an array of shape [sh]. *)
Definition size_of (sh : list Z) : Z := fold_right Z.mul 1%Z sh.

(** [a.shape[i]] *)
Definition shape_at (a : ndarray) (i : nat) : M Z :=
  match shape a !! i with
  | Some d => ret d
  | None => raise IndexError
  end.

(** [np.zeros(sh, dtype=dt)]: a negative dimension is refused. *)
Definition np_zeros (sh : list Z) (dt : np_dtype) : M ndarray :=
  if forallb (Z.leb 0) sh
  then l <- alloc (repeat (Fin 0) (Z.to_nat (size_of sh))) ;;
       ret (mk_ndarray l dt sh)
  else raise ValueError.

(** The limit numpy puts on an array, whatever the memory there is: its
    number of bytes, the dimensions that are zero left out of the product,
    fits a signed 64-bit integer.  An array beyond it is refused with
    ValueError. *)
Definition itemsize (dt : np_dtype) : Z :=
  match dt with
  | float32 => 4%Z
  | float64 => 8%Z
  end.

Definition np_nbytes (dt : np_dtype) (sh : list Z) : Z :=
  (itemsize dt * size_of (filter (fun d => negb (d =? 0)%Z) sh))%Z.

Definition np_addressable (dt : np_dtype) (sh : list Z) : Prop :=
  (np_nbytes dt sh < 2 ^ 63)%Z.

(** [a.astype(dt)] and [a.copy()]: always a new buffer.  The module converts
    to float64 only, which changes no element of a float32 or float64
    array. *)
Definition astype (a : ndarray) (dt : np_dtype) : M ndarray :=
  d <- load (base a) ;;
  l <- alloc d ;;
  ret (mk_ndarray l dt (shape a)).

Definition np_copy (a : ndarray) : M ndarray := astype a (dtype a).

(** [np.ascontiguousarray(a)] returns [a] itself when [a] is C-contiguous and
    a copy otherwise.  Memory order not being modelled, it is the identity:
    of the two behaviours, the one that shares the buffer. *)
Definition np_ascontiguousarray (a : ndarray) : M ndarray := ret a.

(** The shape check of [a.reshape(newshape)]: every negative entry counts as
    the unknown dimension, of which there is at most one. *)
Definition fix_unknown_dimension (size : Z) (newshape : list Z) : result (list Z) :=
  let s_known := size_of (filter (fun d => (0 <= d)%Z) newshape) in
  match filter (fun d => (d < 0)%Z) newshape with
  | [] => if (size =? s_known)%Z then Ok newshape else Err ValueError
  | [_] =>
      if ((s_known =? 0)%Z || negb (size mod s_known =? 0)%Z)%bool
      then Err ValueError
      else Ok (map (fun d => if (d <? 0)%Z then (size / s_known)%Z else d) newshape)
  | _ => Err ValueError
  end.

Definition reshape (a : ndarray) (newshape : list Z) : M ndarray :=
  sh <- lift (fix_unknown_dimension (size_of (shape a)) newshape) ;;
  ret (mk_ndarray (base a) (dtype a) sh).

(** The public attributes of [numpy.ndarray]. *)
Definition ndarray_attributes : list string :=
  [ "T"; "all"; "any"; "argmax"; "argmin"; "argpartition"; "argsort";
    "astype"; "base"; "byteswap"; "choose"; "clip"; "compress"; "conj";
    "conjugate"; "copy"; "ctypes"; "cumprod"; "cumsum"; "data"; "diagonal";
    "dot"; "dtype"; "dump"; "dumps"; "fill"; "flags"; "flat"; "flatten";
    "getfield"; "imag"; "item"; "itemsize"; "max"; "mean"; "min"; "nbytes";
    "ndim"; "nonzero"; "partition"; "prod"; "put"; "ravel"; "real"; "repeat";
    "reshape"; "resize"; "round"; "searchsorted"; "setfield"; "setflags";
    "shape"; "size"; "sort"; "squeeze"; "std"; "strides"; "sum"; "swapaxes";
    "take"; "tobytes"; "tofile"; "tolist"; "trace"; "transpose"; "var";
    "view" ]%string.

(** [a.name]: looking up an attribute the class does not have raises. *)
Definition ndarray_getattr (a : ndarray) (name : string) : M string :=
  if bool_decide (name ∈ ndarray_attributes) then ret name
  else raise AttributeError.

(** [np.dstack((a, b))] on two three-dimensional arrays: concatenation along
    the channel axis, pixel by pixel. *)
Fixpoint interleave (n ka kb : nat) (da db : list pyfloat) : list pyfloat :=
  match n with
  | O => []
  | S n' =>
      take ka da ++ take kb db ++ interleave n' ka kb (drop ka da) (drop kb db)
  end.

Definition promote (d1 d2 : np_dtype) : np_dtype :=
  match d1, d2 with
  | float32, float32 => float32
  | _, _ => float64
  end.

Definition np_dstack (a b : ndarray) : M ndarray :=
  match shape a, shape b with
  | [ya; xa; ka], [yb; xb; kb] =>
      if ((ya =? yb)%Z && (xa =? xb)%Z)%bool
      then da <- load (base a) ;;
           db <- load (base b) ;;
           l <- alloc (interleave (Z.to_nat (ya * xa)) (Z.to_nat ka) (Z.to_nat kb) da db) ;;
           ret (mk_ndarray l (promote (dtype a) (dtype b)) [ya; xa; (ka + kb)%Z])
      else raise ValueError
  | _, _ => raise ValueError
  end.

(** ** The call into the native library *)

(** [ndpointer(dtype=dt, shape=sh)] as an argument type: ctypes refuses an
    array of another dtype or shape. *)
Definition ndpointer_from_param (dt : np_dtype) (sh : list Z) (a : ndarray) : M unit :=
  if (bool_decide (dtype a = dt) && bool_decide (shape a = sh))%bool
  then ret tt
  else raise ArgumentError.

(** [c_int] as an argument type: a Python integer is accepted, a float is
    refused. *)
Definition c_int_from_param (v : py_num) : M Z :=
  match v with
  | PInt z => ret z
  | PFloat _ => raise ArgumentError
  end.

(** The C [int] made of a Python integer: its 32 low bits, as a signed
    number (ctypes checks no overflow). *)
Definition wrap32 (z : Z) : Z := ((z + 2 ^ 31) mod 2 ^ 32 - 2 ^ 31)%Z.

(** What the C routine receives: the addresses of the three buffers, and the
    scalars converted to their declared C types. *)
Record c_call : Type := mk_c_call {
  cc_cloud : loc;
  cc_raster : loc;
  cc_raster_std : loc;
  cc_nb_points : Z;
  cc_nb_extra_columns : Z;
  cc_xoff : pyfloat;
  cc_yoff : pyfloat;
  cc_resolution : pyfloat;
  cc_xsize : Z;
  cc_ysize : Z;
  cc_radius : Z;
  cc_sigma : pyfloat
}.

Definition c_arguments (c : native_call) : c_call :=
  mk_c_call (base (nc_cloud c)) (base (nc_raster c)) (base (nc_raster_std c))
    (wrap32 (nc_nb_points c)) (wrap32 (nc_nb_extra_columns c))
    (float64_of (nc_xoff c)) (float64_of (nc_yoff c)) (float64_of (nc_resolution c))
    (wrap32 (nc_xsize c)) (wrap32 (nc_ysize c)) (wrap32 (nc_radius c))
    (float32_of (nc_sigma c)).

Coercion c_arguments : native_call >-> c_call.

(** What the native routine computes for each cell of the three buffers it is
    handed.  The buffers keep their sizes: the routine receives addresses.  A
    cell of the cloud is a C [double] and a cell of a raster a C [float]: what
    is stored is the computed value converted to the type of the cell. *)
Record native_write : Type := mk_native_write {
  raw_cloud : nat -> pyfloat;
  raw_raster : nat -> pyfloat;
  raw_raster_std : nat -> pyfloat
}.

Definition w_cloud (w : native_write) (i : nat) : pyfloat := float64_of (raw_cloud w i).
Definition w_raster (w : native_write) (i : nat) : pyfloat := float32_of (raw_raster w i).
Definition w_raster_std (w : native_write) (i : nat) : pyfloat :=
  float32_of (raw_raster_std w i).

Definition refill (w : nat -> pyfloat) (old : list pyfloat) : list pyfloat :=
  map w (seq 0 (length old)).

Section Wrapper.

(** [rasterize_cloud] of [libplyflatten.so], compiled from C and absent from
    the Python sources: any function of the arguments it receives and of the
    contents of the three buffers.  A C routine called through ctypes returns
    to Python without raising. *)
Variable rasterize_cloud :
  c_call -> list pyfloat -> list pyfloat -> list pyfloat -> native_write.

(** [lib.rasterize_cloud(cloud, raster, raster_std, nb_points, ...)]: ctypes
    converts every argument as the declared [argtypes] say, then calls the
    routine.  Without declared types an array cannot be converted. *)
Definition call_rasterize_cloud (cloud raster raster_std : ndarray)
    (nb_points nb_extra_columns : Z) (xoff yoff resolution : pyfloat)
    (xsize ysize : Z) (radius : py_num) (sigma : pyfloat) : M unit :=
  declared <- get_argtypes ;;
  match declared with
  | None => raise ArgumentError
  | Some t =>
      _ <- ndpointer_from_param float64 (at_cloud_shape t) cloud ;;
      _ <- ndpointer_from_param float32 (at_raster_shape t) raster ;;
      _ <- ndpointer_from_param float32 (at_raster_shape t) raster_std ;;
      radius <- c_int_from_param radius ;;
      let c := mk_native_call cloud raster raster_std nb_points nb_extra_columns
                 xoff yoff resolution xsize ysize radius sigma in
      _ <- log_native_call c ;;
      d_cloud <- load (base cloud) ;;
      d_raster <- load (base raster) ;;
      d_raster_std <- load (base raster_std) ;;
      let w := rasterize_cloud (c_arguments c) d_cloud d_raster d_raster_std in
      _ <- store (base cloud) (refill (w_cloud w) d_cloud) ;;
      _ <- store (base raster) (refill (w_raster w) d_raster) ;;
      store (base raster_std) (refill (w_raster_std w) d_raster_std)
  end.

(** [plyflatten(cloud, xoff, yoff, resolution, xsize, ysize, radius, sigma, std)] *)
Definition plyflatten (cloud : ndarray) (xoff yoff resolution : pyfloat)
    (xsize ysize : Z) (radius : py_num) (sigma : pyfloat) (std : bool) : M ndarray :=
  nb_points <- shape_at cloud 0 ;;
  ncols <- shape_at cloud 1 ;;
  let nb_extra_columns := (ncols - 2)%Z in
  let raster_shape := [(xsize * ysize)%Z; nb_extra_columns] in
  _ <- set_argtypes (mk_argtypes (shape cloud) raster_shape) ;;
  raster <- np_zeros raster_shape float32 ;;
  raster_std <- np_zeros raster_shape float32 ;;
  cloud64 <- astype cloud float64 ;;
  cloud64 <- np_ascontiguousarray cloud64 ;;
  _ <- call_rasterize_cloud cloud64 raster raster_std nb_points nb_extra_columns
         xoff yoff resolution xsize ysize radius sigma ;;
  raster <- reshape raster [ysize; xsize; nb_extra_columns] ;;
  if std
  then raster_std <- reshape raster_std [ysize; xsize; nb_extra_columns] ;;
       _ <- ndarray_getattr raster "dstack" ;;
       np_dstack raster raster_std
  else ret raster.

(** ** Reductions, indexing and concatenation *)

(** The elements of the view [a[:, j]], in row-major order. *)
Definition getcol (a : ndarray) (j : nat) : M (list pyfloat) :=
  match shape a with
  | n :: m :: rest =>
      if (Z.of_nat j <? m)%Z
      then d <- load (base a) ;;
           let inner := Z.to_nat (size_of rest) in
           let row := (Z.to_nat m * inner)%nat in
           ret (flat_map (fun i => take inner (drop (i * row + j * inner) d))
                         (seq 0 (Z.to_nat n)))
      else raise IndexError
  | _ => raise IndexError
  end.

(** [np.amin] and [np.amax]: a reduction over no element is refused. *)
Definition np_amin (xs : list pyfloat) : M pyfloat :=
  match xs with
  | [] => raise ValueError
  | x :: xs' => ret (fold_left fmin xs' x)
  end.

Definition np_amax (xs : list pyfloat) : M pyfloat :=
  match xs with
  | [] => raise ValueError
  | x :: xs' => ret (fold_left fmax xs' x)
  end.

(** [np.concatenate(arrs)] along the first axis: at least one array, none of
    dimension zero, all of the same shape past the first axis. *)
Definition np_concatenate (arrs : list ndarray) : M ndarray :=
  match arrs with
  | [] => raise ValueError
  | a0 :: _ =>
      match shape a0 with
      | [] => raise ValueError
      | _ :: tl0 =>
          if forallb (fun a => bool_decide (tail (shape a) = tl0 /\ shape a <> [])) arrs
          then ds <- mapM (fun a => load (base a)) arrs ;;
               l <- alloc (concat ds) ;;
               ret (mk_ndarray l (fold_right promote float32 (map dtype arrs))
                      (fold_right Z.add 0%Z (map (fun a => hd 0%Z (shape a)) arrs) :: tl0))
          else raise ValueError
      end
  end.

(** ** Values of the output profile *)

Inductive pyvalue : Type :=
  | VBool (b : bool)
  | VInt (z : Z)
  | VStr (s : string)
  | VFloat (f : pyfloat)
  | VAffine (a b c d e f : pyfloat)
  | VOpaque (repr : string).

(** ** The collaborators of [plyflatten.utils], absent from the sources *)

(** [utils.read_3d_point_cloud_from_ply(path)[0]]: the dtype, shape and
    elements of the array read from a file. *)
Variable read_3d_point_cloud_from_ply :
  string -> result (np_dtype * list Z * list pyfloat).

Variable crs_from_ply : string -> result (pyvalue * pyvalue).
Variable crs_proj : pyvalue -> pyvalue -> result pyvalue.
Variable rasterio_crs : pyvalue -> result pyvalue.

Definition read_cloud (path : string) : M ndarray :=
  r <- lift (read_3d_point_cloud_from_ply path) ;;
  let '(dt, sh, d) := r in
  l <- alloc d ;;
  ret (mk_ndarray l dt sh).

(** ** Region of interest *)

Record roi_t : Type := mk_roi {
  roi_xoff : pyfloat;
  roi_yoff : pyfloat;
  roi_xsize : Z;
  roi_ysize : Z
}.

(** The branch [roi is None] of [plyflatten_from_plyfiles_list]. *)
Definition derive_roi (full_cloud : ndarray) (resolution : pyfloat) : M roi_t :=
  xx <- getcol full_cloud 0 ;;
  yy <- getcol full_cloud 1 ;;
  xmin <- np_amin xx ;;
  xmax <- np_amax xx ;;
  ymin <- np_amin yy ;;
  ymax <- np_amax yy ;;
  let xoff := fmul (ffloor (fdiv xmin resolution)) resolution in
  xsize <- lift (py_int (fadd (Fin 1) (ffloor (fdiv (fsub xmax xoff) resolution)))) ;;
  let yoff := fmul (fceil (fdiv ymax resolution)) resolution in
  ysize <- lift (py_int (fsub (Fin 1) (ffloor (fdiv (fsub ymin yoff) resolution)))) ;;
  ret (mk_roi xoff yoff xsize ysize).

(** [plyflatten_from_plyfiles_list(clouds_list, resolution, radius, roi, sigma, std)] *)
Definition plyflatten_from_plyfiles_list (clouds_list : list string)
    (resolution : pyfloat) (radius : py_num) (roi : option roi_t)
    (sigma : option pyfloat) (std : bool) : M (ndarray * gmap string pyvalue) :=
  full_cloud <- mapM (fun cloud =>
                        cloud_data <- read_cloud cloud ;;
                        astype cloud_data float64) clouds_list ;;
  full_cloud <- np_concatenate full_cloud ;;
  r <- match roi with
       | Some r => ret r
       | None => derive_roi full_cloud resolution
       end ;;
  full_cloud <- np_copy full_cloud ;;
  let sigma := match sigma with None => PosInf | Some sg => sg end in
  raster <- plyflatten full_cloud (roi_xoff r) (roi_yoff r) resolution
              (roi_xsize r) (roi_ysize r) radius sigma std ;;
  first <- match clouds_list with
           | c :: _ => ret c
           | [] => raise IndexError
           end ;;
  cc <- lift (crs_from_ply first) ;;
  p <- lift (crs_proj (fst cc) (snd cc)) ;;
  crs <- lift (rasterio_crs p) ;;
  let profile : gmap string pyvalue := ∅ in
  let profile := <["tiled" := VBool true]> profile in
  let profile := <["compress" := VStr "deflate"]> profile in
  let profile := <["predictor" := VInt 2]> profile in
  let profile := <["nodata" := VFloat NaN]> profile in
  let profile := <["crs" := crs]> profile in
  let profile := <["transform" :=
                     VAffine resolution (Fin 0) (roi_xoff r)
                             (Fin 0) (fneg resolution) (roi_yoff r)]> profile in
  ret (raster, profile).

End Wrapper.

(** ** Point clouds as tables of rationals *)


(** The row-major elements of the array holding the table [pts]. *)
Definition table_data (pts : list (list Q)) : list pyfloat :=
  map Fin (concat pts).








(** An array without rows, of at least two columns. *)
Definition no_rows (a : ndarray) : Prop :=
  exists m : Z, shape a = [0%Z; m] /\ (2 <= m)%Z.

(** The type of the native routine the wrapper is run against. *)
Definition native_routine : Type :=
  c_call -> list pyfloat -> list pyfloat -> list pyfloat -> native_write.

(** ** Concrete environments, to run the model on examples *)

(** A native routine that leaves the three buffers as it finds them. *)
Definition idle_rasterize_cloud (c : c_call)
    (d_cloud d_raster d_raster_std : list pyfloat) : native_write :=
  mk_native_write (fun i => default NaN (d_cloud !! i))
                  (fun i => default NaN (d_raster !! i))
                  (fun i => default NaN (d_raster_std !! i)).

(** A native routine that computes one tenth for every cell. *)
Definition tenth_rasterize_cloud (c : c_call)
    (d_cloud d_raster d_raster_std : list pyfloat) : native_write :=
  mk_native_write (fun i => default NaN (d_cloud !! i))
                  (fun _ => Fin (1 # 10))
                  (fun _ => Fin (1 # 10)).

(** A store holding the one-point cloud [[0.5, 0.5, 10.0]]. *)
Definition store1 : state :=
  mk_state {[ 1%positive := [Fin (1 # 2); Fin (1 # 2); Fin 10] ]} [] None.

Definition cloud1 : ndarray := mk_ndarray 1%positive float64 [1; 3]%Z.

Definition empty_store : state := mk_state ∅ [] None.

(** A reader knowing two files: two points, and no point at all. *)
Definition two_points : list (list Q) :=
  [ [1 # 4; 1 # 4; 10]; [3 # 4; 11 # 4; 20] ]%Q.

Definition sample_reader (path : string) : result (np_dtype * list Z * list pyfloat) :=
  if String.eqb path "two.ply" then Ok (float32, [2; 3]%Z, table_data two_points)
  else if String.eqb path "none.ply" then Ok (float32, [0; 3]%Z, [])
  else Err (OtherException "FileNotFoundError").

Definition sample_crs_from_ply (path : string) : result (pyvalue * pyvalue) :=
  Ok (VOpaque "EPSG:32631", VStr "UTM").

Definition sample_crs_proj (crs crs_type : pyvalue) : result pyvalue := Ok crs.

Definition sample_rasterio_crs (p : pyvalue) : result pyvalue := Ok p.



(** A store holding a cloud of two points, the first without an abscissa. *)
Definition nan_rows : list (list pyfloat) :=
  [ [NaN; Fin (1 # 2); Fin 10]; [Fin (1 # 2); Fin (1 # 2); Fin 10] ].

Definition store4 : state := mk_state {[ 1%positive := concat nan_rows ]} [] None.

Definition cloud4 : ndarray := mk_ndarray 1%positive float64 [2; 3]%Z.

(** A reader that also knows a file of two columns. *)
Definition mixed_reader (path : string) : result (np_dtype * list Z * list pyfloat) :=
  if String.eqb path "flat.ply" then Ok (float64, [1; 2]%Z, [Fin 0; Fin 0])
  else sample_reader path.

(** A lookup of the coordinate system that fails. *)
Definition failing_crs_from_ply (path : string) : result (pyvalue * pyvalue) :=
  Err (OtherException "KeyError").




(** A cloud of one column and a cloud of one dimension, over a buffer of
    three zeros. *)
Definition store_flat : state :=
  mk_state {[ 1%positive := [Fin 0; Fin 0; Fin 0] ]} [] None.

Definition one_column : ndarray := mk_ndarray 1%positive float64 [3; 1]%Z.

Definition flat_cloud : ndarray := mk_ndarray 1%positive float64 [3]%Z.

(** * Properties *)

(** ** Powers of two and binary logarithms *)

Lemma pow2_pos (e : Z) : (0 < pow2 e)%Q.
Proof. apply Qpower_0_lt. reflexivity. Qed.

Lemma pow2_le (e e' : Z) : (e <= e')%Z -> (pow2 e <= pow2 e')%Q.
Proof. intros H. apply Qpower_le_compat_l; [exact H | discriminate]. Qed.

Lemma pow2_lt (e e' : Z) : (e < e')%Z -> (pow2 e < pow2 e')%Q.
Proof. intros H. apply Qpower_lt_compat_l; [exact H | reflexivity]. Qed.

Lemma pow2_lt_inv (e e' : Z) : (pow2 e < pow2 e')%Q -> (e < e')%Z.
Proof. intros H. apply (Qpower_lt_compat_l_inv 2); [exact H | reflexivity]. Qed.

Lemma pow2_plus (a b : Z) : (pow2 (a + b) == pow2 a * pow2 b)%Q.
Proof. apply Qpower_plus. discriminate. Qed.

Lemma pow2_Z (n : Z) : (0 <= n)%Z -> (pow2 n == inject_Z (2 ^ n))%Q.
Proof. intros H. unfold pow2. rewrite Zpower_Qpower by exact H. reflexivity. Qed.

Lemma pow2_minus (a b : Z) : (pow2 (a - b) == pow2 a / pow2 b)%Q.
Proof. apply Qpower_minus. discriminate. Qed.

(** A positive rational between powers of two. *)
Lemma Qlog2_spec (a : Q) :
  (0 < a)%Q -> (pow2 (Qlog2 a) <= a)%Q /\ (a < pow2 (Qlog2 a + 1))%Q.
Proof.
  intros Ha. destruct a as [n d]. unfold Qlt in Ha. simpl in Ha.
  assert (Hn : (0 < n)%Z) by lia.
  unfold Qlog2. cbn [Qnum Qden].
  set (ln := Z.log2 n). set (ld := Z.log2 (Z.pos d)).
  destruct (Z.log2_spec n Hn) as [Hn1 Hn2]. fold ln in Hn1, Hn2.
  destruct (Z.log2_spec (Z.pos d) ltac:(lia)) as [Hd1 Hd2]. fold ld in Hd1, Hd2.
  assert (Hln : (0 <= ln)%Z) by apply Z.log2_nonneg.
  assert (Hld : (0 <= ld)%Z) by apply Z.log2_nonneg.
  (* n / d as a quotient of rationals *)
  assert (E : (n # d == inject_Z n / inject_Z (Z.pos d))%Q).
  { rewrite (Qmake_Qdiv n d). reflexivity. }
  assert (Pd : (0 < inject_Z (Z.pos d))%Q) by (unfold Qlt; simpl; lia).
  assert (Qn1 : (pow2 ln <= inject_Z n)%Q).
  { rewrite pow2_Z by exact Hln. rewrite <- Zle_Qle. exact Hn1. }
  assert (Qn2 : (inject_Z n < pow2 (ln + 1))%Q).
  { rewrite pow2_Z by lia. rewrite <- Zlt_Qlt. rewrite <- Z.add_1_r in Hn2. exact Hn2. }
  assert (Qd1 : (pow2 ld <= inject_Z (Z.pos d))%Q).
  { rewrite pow2_Z by exact Hld. rewrite <- Zle_Qle. exact Hd1. }
  assert (Qd2 : (inject_Z (Z.pos d) < pow2 (ld + 1))%Q).
  { rewrite pow2_Z by lia. rewrite <- Zlt_Qlt. rewrite <- Z.add_1_r in Hd2. exact Hd2. }
  (* the quotient lies strictly between 2^(k-1) and 2^(k+1) *)
  assert (Lo : (pow2 (ln - ld - 1) < (n # d))%Q).
  { rewrite E. apply Qlt_shift_div_l; [exact Pd |].
    apply Qlt_le_trans with (pow2 (ln - ld - 1) * pow2 (ld + 1))%Q.
    - apply Qmult_lt_l; [apply pow2_pos | exact Qd2].
    - rewrite <- pow2_plus. replace (ln - ld - 1 + (ld + 1))%Z with ln by lia. exact Qn1. }
  assert (Hi : ((n # d) < pow2 (ln - ld + 1))%Q).
  { rewrite E. apply Qlt_shift_div_r; [exact Pd |].
    apply Qlt_le_trans with (pow2 (ln + 1)); [exact Qn2 |].
    replace (ln + 1)%Z with (ln - ld + 1 + ld)%Z by lia. rewrite pow2_plus.
    apply Qmult_le_l; [apply pow2_pos | exact Qd1]. }
  destruct (Qle_bool (pow2 (ln - ld)) (n # d)) eqn:B.
  - apply Qle_bool_iff in B. split; [exact B | exact Hi].
  - split; [apply Qlt_le_weak, Lo |].
    replace (ln - ld - 1 + 1)%Z with (ln - ld)%Z by lia.
    apply Qnot_le_lt. intros C. apply Qle_bool_iff in C. congruence.
Qed.

Lemma Qlog2_unique (a : Q) (e : Z) :
  (pow2 e <= a)%Q -> (a < pow2 (e + 1))%Q -> Qlog2 a = e.
Proof.
  intros H1 H2.
  assert (Ha : (0 < a)%Q) by (eapply Qlt_le_trans; [apply pow2_pos | exact H1]).
  destruct (Qlog2_spec a Ha) as [S1 S2].
  assert (A : (e < Qlog2 a + 1)%Z).
  { apply pow2_lt_inv. eapply Qle_lt_trans; [exact H1 | exact S2]. }
  assert (B : (Qlog2 a < e + 1)%Z).
  { apply pow2_lt_inv. eapply Qle_lt_trans; [exact S1 | exact H2]. }
  lia.
Qed.


Lemma Qlog2_comp (a b : Q) : (0 < a)%Q -> (a == b)%Q -> Qlog2 a = Qlog2 b.
Proof.
  intros Ha E. destruct (Qlog2_spec a Ha) as [A1 A2].
  symmetry. apply Qlog2_unique; rewrite <- E; assumption.
Qed.

(** ** Rounding to the nearest integer *)

Lemma rne_bounds (x : Q) : (Qfloor x <= rne x <= Qfloor x + 1)%Z.
Proof.
  unfold rne. destruct (Qcompare _ _); [destruct (Z.even _) | |]; lia.
Qed.

Lemma rne_comp (x y : Q) : (x == y)%Q -> rne x = rne y.
Proof.
  intros E. unfold rne. rewrite (Qfloor_comp x y E).
  assert (E' : (x - inject_Z (Qfloor y) == y - inject_Z (Qfloor y))%Q) by (rewrite E; reflexivity).
  rewrite (Qcompare_comp _ _ E' _ _ (Qeq_refl (1 # 2))). reflexivity.
Qed.

Lemma rne_int (n : Z) : rne (inject_Z n) = n.
Proof.
  unfold rne. rewrite Qfloor_Z.
  assert (E : (inject_Z n - inject_Z n ?= 1 # 2)%Q = Lt).
  { apply (proj1 (Qlt_alt _ _)). lra. }
  rewrite E. reflexivity.
Qed.

Lemma rne_mono (x y : Q) : (x <= y)%Q -> (rne x <= rne y)%Z.
Proof.
  intros Hxy.
  assert (Hf : (Qfloor x <= Qfloor y)%Z) by (apply Qfloor_resp_le, Hxy).
  destruct (Z.eq_dec (Qfloor x) (Qfloor y)) as [E | N].
  - unfold rne. rewrite E.
    set (f := Qfloor y).
    destruct (Qcompare (y - inject_Z f) (1 # 2)) eqn:Cy.
    + apply Qeq_alt in Cy.
      destruct (Qcompare (x - inject_Z f) (1 # 2)) eqn:Cx.
      * lia.
      * destruct (Z.even f); lia.
      * apply Qgt_alt in Cx. lra.
    + apply Qlt_alt in Cy.
      assert (Cx : (x - inject_Z f ?= 1 # 2)%Q = Lt) by (apply (proj1 (Qlt_alt _ _)); lra).
      rewrite Cx. lia.
    + destruct (Qcompare (x - inject_Z f) (1 # 2)); [destruct (Z.even f) | |]; lia.
  - assert (H1 := rne_bounds x). assert (H2 := rne_bounds y). lia.
Qed.

Lemma rne_ge_int (n : Z) (x : Q) : (inject_Z n <= x)%Q -> (n <= rne x)%Z.
Proof. intros H. rewrite <- (rne_int n). apply rne_mono, H. Qed.

Lemma rne_le_int (n : Z) (x : Q) : (x <= inject_Z n)%Q -> (rne x <= n)%Z.
Proof. intros H. rewrite <- (rne_int n). apply rne_mono, H. Qed.

(** ** Rounding a positive rational to [prec] bits *)

Lemma round_pos_val (prec emax : Z) (a : Q) :
  round_pos prec emax a
  = if Qle_bool (pow2 emax) (round_val prec emax a) then None
    else Some (Qred (round_val prec emax a)).
Proof. reflexivity. Qed.




Lemma round_val_nonneg (prec emax : Z) (a : Q) :
  (0 <= a)%Q -> (0 <= round_val prec emax a)%Q.
Proof.
  intros Ha. unfold round_val.
  apply Qmult_le_0_compat; [| apply Qlt_le_weak, pow2_pos].
  change 0%Q with (inject_Z 0). rewrite <- Zle_Qle.
  apply rne_ge_int. change (inject_Z 0) with 0%Q.
  apply Qle_shift_div_l; [apply pow2_pos | lra].
Qed.

(** Below [2^(ulp + prec)], and at least [2^(ulp + prec - 1)] unless the
    exponent is the least one. *)
Lemma round_val_upper (prec emax : Z) (a : Q) :
  (0 < a)%Q ->
  (round_val prec emax a <= pow2 (ulp_exp prec emax a + prec))%Q.
Proof.
  intros Ha. unfold round_val. set (e := ulp_exp prec emax a).
  destruct (Qlog2_spec a Ha) as [_ S2].
  assert (He : (Qlog2 a + 1 <= e + prec)%Z) by (unfold e, ulp_exp; lia).
  assert (Hlt : (a / pow2 e <= pow2 prec)%Q).
  { apply Qle_shift_div_r; [apply pow2_pos |].
    rewrite <- pow2_plus. apply Qlt_le_weak.
    eapply Qlt_le_trans; [exact S2 |]. apply pow2_le. lia. }
  destruct (Z_lt_le_dec prec 0) as [Hp | Hp].
  - (* a negative precision: the scaled value is below one *)
    assert (H1 : (pow2 prec <= inject_Z 1)%Q).
    { change (inject_Z 1) with (pow2 0). apply pow2_le. lia. }
    assert (Hr : (rne (a / pow2 e) <= 1)%Z) by (apply rne_le_int; lra).
    assert (Hr0 : (0 <= rne (a / pow2 e))%Z).
    { apply rne_ge_int. change (inject_Z 0) with 0%Q.
      apply Qle_shift_div_l; [apply pow2_pos | lra]. }
    (* rne of a value at most 2^prec < 1/2 ... *)
    assert (Hhalf : (pow2 prec <= 1 # 2)%Q).
    { change (1 # 2)%Q with (pow2 (-1)). apply pow2_le. lia. }
    assert (Hz : rne (a / pow2 e) = 0%Z).
    { assert (Hfl : Qfloor (a / pow2 e) = 0%Z).
      { assert (F1 : (0 <= Qfloor (a / pow2 e))%Z).
        { change 0%Z with (Qfloor (inject_Z 0)). apply Qfloor_resp_le.
          change (inject_Z 0) with 0%Q.
          apply Qle_shift_div_l; [apply pow2_pos | lra]. }
        assert (F2 : (Qfloor (a / pow2 e) <= 0)%Z).
        { change 0%Z with (Qfloor (1 # 2)). apply Qfloor_resp_le. lra. }
        lia. }
      unfold rne. rewrite Hfl.
      destruct (Qcompare (a / pow2 e - inject_Z 0) (1 # 2)) eqn:C.
      - reflexivity.
      - reflexivity.
      - apply Qgt_alt in C. change (inject_Z 0) with 0%Q in C. lra. }
    rewrite Hz. change (inject_Z 0) with 0%Q. ring_simplify.
    apply Qlt_le_weak, pow2_pos.
  - rewrite (pow2_plus e prec), (Qmult_comm (pow2 e)).
    apply Qmult_le_compat_r; [| apply Qlt_le_weak, pow2_pos].
    rewrite (pow2_Z prec Hp). rewrite <- Zle_Qle.
    apply rne_le_int. rewrite <- (pow2_Z prec Hp). exact Hlt.
Qed.



Lemma round_val_comp (prec emax : Z) (a b : Q) :
  (0 < a)%Q -> (a == b)%Q -> (round_val prec emax a == round_val prec emax b)%Q.
Proof.
  intros Ha E. unfold round_val, ulp_exp. rewrite (Qlog2_comp a b Ha E).
  set (e := Z.max _ _).
  assert (E' : (a / pow2 e == b / pow2 e)%Q) by (rewrite E; reflexivity).
  rewrite (rne_comp _ _ E'). reflexivity.
Qed.

(** ** Rounding to a floating-point format *)

Lemma Qnum_sign (q : Q) :
  (Qnum q = 0%Z /\ (q == 0)%Q) \/
  ((exists p, Qnum q = Zpos p) /\ (0 < q)%Q) \/
  ((exists p, Qnum q = Zneg p) /\ (q < 0)%Q).
Proof.
  destruct q as [[| p | p] d].
  - left. split; reflexivity.
  - right; left. split; [exists p; reflexivity | reflexivity].
  - right; right. split; [exists p; reflexivity | reflexivity].
Qed.

Lemma round_to_zero (prec emax : Z) (q : Q) : (q == 0)%Q -> round_to prec emax q = Fin 0.
Proof.
  intros E. destruct (Qnum_sign q) as [[H _] | [[[p H] Hs] | [[p H] Hs]]].
  - unfold round_to. rewrite H. reflexivity.
  - lra.
  - lra.
Qed.

Lemma round_to_pos (prec emax : Z) (q : Q) :
  (0 < q)%Q ->
  round_to prec emax q
  = if Qle_bool (pow2 emax) (round_val prec emax q) then PosInf
    else Fin (Qred (round_val prec emax q)).
Proof.
  intros Hq. destruct (Qnum_sign q) as [[_ H] | [[[p H] _] | [_ H]]]; try lra.
  unfold round_to. rewrite H, round_pos_val.
  destruct (Qle_bool _ _); reflexivity.
Qed.

Lemma round_to_neg (prec emax : Z) (q : Q) :
  (q < 0)%Q ->
  round_to prec emax q
  = if Qle_bool (pow2 emax) (round_val prec emax (- q)) then NegInf
    else Fin (- Qred (round_val prec emax (- q))).
Proof.
  intros Hq. destruct (Qnum_sign q) as [[_ H] | [[_ H] | [[p H] _]]]; try lra.
  unfold round_to. rewrite H, round_pos_val.
  destruct (Qle_bool _ _); reflexivity.
Qed.

Lemma round_to_opp (prec emax : Z) (q : Q) :
  round_to prec emax (- q) = fneg (round_to prec emax q).
Proof.
  destruct (Qnum_sign q) as [[H E] | [[_ H] | [_ H]]].
  - unfold round_to. destruct q as [n d]. simpl in *. subst n. reflexivity.
  - rewrite (round_to_pos prec emax q H), (round_to_neg prec emax (- q)) by lra.
    assert (E : - - q = q) by (destruct q; unfold Qopp; simpl; rewrite Z.opp_involutive; reflexivity).
    rewrite E. destruct (Qle_bool _ _); reflexivity.
  - rewrite (round_to_neg prec emax q H), (round_to_pos prec emax (- q)) by lra.
    destruct (Qle_bool _ _); [reflexivity |].
    cbn [fneg]. f_equal.
    set (v := Qred _). destruct v; unfold Qopp; simpl; rewrite Z.opp_involutive; reflexivity.
Qed.



(** ** Values that rounding leaves unchanged *)

Lemma Qred_zero (q : Q) : (q == 0)%Q -> Qred q = 0%Q.
Proof. intros E. apply (Qred_complete q 0 E). Qed.

Lemma round_val_exact (prec emax : Z) (a : Q) (k : Z) :
  (a / pow2 (ulp_exp prec emax a) == inject_Z k)%Q ->
  (round_val prec emax a == a)%Q.
Proof.
  intros H. unfold round_val. rewrite (rne_comp _ _ H), rne_int.
  rewrite <- H. field.
  assert (P := pow2_pos (ulp_exp prec emax a)). lra.
Qed.

Lemma pow2_scale_int (m : Z) (e e' : Z) :
  (e' <= e)%Z ->
  (inject_Z m * pow2 e / pow2 e' == inject_Z (m * 2 ^ (e - e')))%Q.
Proof.
  intros H. rewrite inject_Z_mult, <- (pow2_Z (e - e')) by lia.
  rewrite pow2_minus. field.
  assert (P := pow2_pos e'). lra.
Qed.

(** A value already rounded is its own rounding. *)
Lemma round_val_idem (prec emax : Z) (a : Q) :
  (1 <= prec)%Z -> (0 < a)%Q -> (0 < round_val prec emax a)%Q ->
  (round_val prec emax (round_val prec emax a) == round_val prec emax a)%Q.
Proof.
  intros Hp Ha Hpos.
  assert (Hup := round_val_upper prec emax a Ha).
  unfold round_val in Hpos, Hup |- * at 2 3.
  set (e := ulp_exp prec emax a) in *.
  set (m := rne (a / pow2 e)) in *.
  set (rv := (inject_Z m * pow2 e)%Q) in *.
  assert (Pe := pow2_pos e).
  assert (Hemin : (3 - emax - prec <= e)%Z) by (unfold e, ulp_exp; lia).
  assert (Hm : (m <= 2 ^ prec)%Z).
  { rewrite Zle_Qle, <- (pow2_Z prec) by lia.
    apply (Qmult_le_r _ _ (pow2 e) Pe).
    rewrite <- pow2_plus, (Z.add_comm prec e). exact Hup. }
  destruct (Z.eq_dec m (2 ^ prec)%Z) as [Em | Nm].
  - (* the rounding reached the next power of two *)
    assert (Erv : (rv == pow2 (e + prec))%Q).
    { unfold rv. rewrite Em, <- (pow2_Z prec), pow2_plus by lia. ring. }
    assert (El : Qlog2 rv = (e + prec)%Z).
    { apply Qlog2_unique; rewrite Erv; [apply Qle_refl | apply pow2_lt; lia]. }
    apply (round_val_exact prec emax rv (2 ^ (prec - 1))%Z).
    unfold ulp_exp. rewrite El.
    replace (Z.max (e + prec - (prec - 1)) (3 - emax - prec)) with (e + 1)%Z by lia.
    rewrite Erv, <- (pow2_Z (prec - 1)), <- pow2_minus by lia.
    replace (e + prec - (e + 1))%Z with (prec - 1)%Z by lia. reflexivity.
  - assert (Hlt : (rv < pow2 (e + prec))%Q).
    { unfold rv. rewrite pow2_plus, (Qmult_comm (pow2 e)).
      apply Qmult_lt_compat_r; [exact Pe |].
      rewrite (pow2_Z prec) by lia. rewrite <- Zlt_Qlt. lia. }
    assert (Hl : (Qlog2 rv < e + prec)%Z).
    { apply pow2_lt_inv. eapply Qle_lt_trans; [apply Qlog2_spec, Hpos | exact Hlt]. }
    assert (He' : (ulp_exp prec emax rv <= e)%Z) by (unfold ulp_exp; lia).
    apply (round_val_exact prec emax rv (m * 2 ^ (e - ulp_exp prec emax rv))%Z).
    apply pow2_scale_int, He'.
Qed.

Lemma round_to_idem (prec emax : Z) (q v : Q) :
  (1 <= prec)%Z ->
  round_to prec emax q = Fin v -> round_to prec emax v = Fin v.
Proof.
  intros Hp.
  assert (Hpos : forall a w, (0 < a)%Q ->
            round_to prec emax a = Fin w -> round_to prec emax w = Fin w).
  { intros a w Ha Hr. rewrite (round_to_pos _ _ a Ha) in Hr.
    destruct (Qle_bool (pow2 emax) (round_val prec emax a)) eqn:B; [discriminate |].
    injection Hr as <-.
    assert (Hnn := round_val_nonneg prec emax a (Qlt_le_weak _ _ Ha)).
    destruct (Qlt_le_dec 0 (round_val prec emax a)) as [P | Z0].
    - assert (Pw : (0 < Qred (round_val prec emax a))%Q) by (rewrite Qred_correct; exact P).
      rewrite (round_to_pos _ _ _ Pw).
      assert (E : (round_val prec emax (Qred (round_val prec emax a))
                   == round_val prec emax a)%Q).
      { rewrite (round_val_comp prec emax _ (round_val prec emax a) Pw (Qred_correct _)).
        apply round_val_idem; assumption. }
      assert (B' : Qle_bool (pow2 emax) (round_val prec emax (Qred (round_val prec emax a)))
                   = false).
      { destruct (Qle_bool (pow2 emax) (round_val prec emax (Qred (round_val prec emax a))))
          eqn:B'; [| reflexivity].
        apply Qle_bool_iff in B'. rewrite E in B'. apply Qle_bool_iff in B'. congruence. }
      rewrite B'. f_equal. apply Qred_complete, E.
    - rewrite (Qred_zero (round_val prec emax a)) by lra. reflexivity. }
  intros Hr.
  destruct (Qlt_le_dec 0 q) as [P | N]; [exact (Hpos q v P Hr) |].
  destruct (Qlt_le_dec q 0) as [L | Z0].
  - assert (Hn : round_to prec emax (- q) = Fin (- v)).
    { rewrite round_to_opp, Hr. reflexivity. }
    apply (Hpos (- q) (- v)) in Hn; [| lra].
    assert (E : round_to prec emax v = fneg (round_to prec emax (- v))).
    { rewrite <- round_to_opp. f_equal.
      destruct v; unfold Qopp; simpl; rewrite Z.opp_involutive; reflexivity. }
    rewrite E, Hn. cbn [fneg]. f_equal.
    destruct v; unfold Qopp; simpl; rewrite Z.opp_involutive; reflexivity.
  - rewrite (round_to_zero _ _ q) in Hr by lra. injection Hr as <-. reflexivity.
Qed.

(** Rounding yields a value of the format. *)
Lemma float32_of_is_float32 (a : pyfloat) : is_float32 (float32_of a).
Proof.
  unfold is_float32. destruct a as [q | | |]; try reflexivity.
  cbn [float32_of]. destruct (b32 q) as [v | | |] eqn:E; try reflexivity.
  cbn [float32_of]. apply (round_to_idem 24 128 q v); [lia | exact E].
Qed.

Lemma float64_of_is_float64 (a : pyfloat) : is_float64 (float64_of a).
Proof.
  unfold is_float64. destruct a as [q | | |]; try reflexivity.
  cbn [float64_of]. destruct (b64 q) as [v | | |] eqn:E; try reflexivity.
  cbn [float64_of]. apply (round_to_idem 53 1024 q v); [lia | exact E].
Qed.

(** ** Integers as doubles *)



(** ** [int] of a double *)



(** ** Order of rounded values *)









(** ** The rounding against [SpecFloat] *)

(** The quotients, products and differences of the examples used below, as
    the Standard Library's IEEE 754 operations compute them. *)
Example b64_div_agrees :
  spec_float_value (SFdiv 53 1024 (sf64 1 0) (sf64 10 0)) = b64 (1 # 10) /\
  spec_float_value (SFdiv 53 1024 (sf64 303 0) (sf64 100 0)) = b64 (303 # 100) /\
  spec_float_value (SFdiv 53 1024 (SFdiv 53 1024 (sf64 303 0) (sf64 100 0))
                      (SFdiv 53 1024 (sf64 1 0) (sf64 100 0)))
  = fdiv (b64 (303 # 100)) (b64 (1 # 100)) /\
  spec_float_value (SFdiv 53 1024 (SFdiv 53 1024 (sf64 288 0) (sf64 10 0))
                      (SFdiv 53 1024 (sf64 3 0) (sf64 10 0)))
  = fdiv (b64 (288 # 10)) (b64 (3 # 10)).
Proof. vm_compute. auto. Qed.

Example b64_mul_sub_agree :
  let hundredth := SFdiv 53 1024 (sf64 1 0) (sf64 100 0) in
  let x := SFdiv 53 1024 (sf64 303 0) (sf64 100 0) in
  spec_float_value (SFmul 53 1024 (sf64 303 0) hundredth)
  = fmul (Fin 303) (b64 (1 # 100)) /\
  spec_float_value (SFsub 53 1024 x (SFmul 53 1024 (sf64 303 0) hundredth))
  = fsub (b64 (303 # 100)) (fmul (Fin 303) (b64 (1 # 100))) /\
  spec_float_value (SFadd 53 1024 (sf64 1 0) (sf64 1 53)) = fadd (Fin 1) (Fin (pow2 53)).
Proof. vm_compute. auto. Qed.

Example b64_range_agrees :
  spec_float_value (SFmul 53 1024 (sf64 1 1000) (sf64 1 1000)) = b64 (pow2 2000) /\
  spec_float_value (SFdiv 53 1024 (sf64 1 (-1000)) (sf64 3 70))
  = b64 (pow2 (-1000) / (3 * pow2 70)) /\
  spec_float_value (SFdiv 53 1024 (sf64 1 (-1000)) (sf64 1 80)) = b64 (pow2 (-1080)).
Proof. vm_compute. auto. Qed.

(** ** Rational arithmetic *)


(** ** Extrema of a column *)









(** ** Columns of a table stored in row-major order *)

Lemma take1_drop_row {A} (pre r rest : list A) (j : nat) (d : A) :
  (j < length r)%nat ->
  take 1 (drop (length pre + j) (pre ++ r ++ rest)) = [nth j r d].
Proof.
  intros Hj. rewrite drop_app_add'; [| reflexivity].
  revert j Hj. induction r as [| x r IH]; intros j Hj; simpl in Hj; [lia |].
  destruct j as [| j]; simpl; [reflexivity |].
  apply IH. lia.
Qed.

Lemma column_of_rows {A} (rows : list (list A)) (pre : list A) (m j k : nat) (d : A) :
  Forall (fun r => length r = m) rows ->
  (j < m)%nat ->
  length pre = (k * m)%nat ->
  flat_map (fun i => take 1 (drop (i * m + j) (pre ++ concat rows)))
           (seq k (length rows))
  = map (fun r => nth j r d) rows.
Proof.
  intros Hrows Hj. revert pre k.
  induction Hrows as [| r rows Hr _ IH]; intros pre k Hpre; simpl; [reflexivity |].
  rewrite <- Hpre at 1. rewrite (take1_drop_row pre r (concat rows) j d) by lia.
  simpl. f_equal.
  rewrite (app_assoc pre r (concat rows)). apply IH.
  rewrite length_app, Hpre, Hr. lia.
Qed.



(** ** Running the monad *)

Lemma bind_ok {A B} (m : M A) (k : A -> M B) (s s' : state) (a : A) :
  m s = (Ok a, s') -> bind m k s = k a s'.
Proof. intros H. unfold bind. rewrite H. reflexivity. Qed.

Lemma bind_err {A B} (m : M A) (k : A -> M B) (s s' : state) (e : exn) :
  m s = (Err e, s') -> bind m k s = (Err e, s').
Proof. intros H. unfold bind. rewrite H. reflexivity. Qed.



(** ** Running [plyflatten] *)

Lemma fresh_lookup_None (h : gmap loc (list pyfloat)) : h !! fresh (dom h) = None.
Proof. apply not_elem_of_dom. apply is_fresh. Qed.

Lemma np_zeros_ok (sh : list Z) (dt : np_dtype) (s : state) :
  forallb (Z.leb 0) sh = true ->
  np_zeros sh dt s
  = (Ok (mk_ndarray (fresh (dom (heap s))) dt sh),
     mk_state (<[fresh (dom (heap s)) := repeat (Fin 0) (Z.to_nat (size_of sh))]> (heap s))
              (native_calls s) (argtypes s)).
Proof. intros H. unfold np_zeros. rewrite H. reflexivity. Qed.

Lemma np_zeros_err (sh : list Z) (dt : np_dtype) (s : state) :
  forallb (Z.leb 0) sh = false -> np_zeros sh dt s = (Err ValueError, s).
Proof. intros H. unfold np_zeros. rewrite H. reflexivity. Qed.

Lemma astype_run (a : ndarray) (dt : np_dtype) (s : state) :
  astype a dt s
  = (Ok (mk_ndarray (fresh (dom (heap s))) dt (shape a)),
     mk_state (<[fresh (dom (heap s)) := default [] (heap s !! base a)]> (heap s))
              (native_calls s) (argtypes s)).
Proof. reflexivity. Qed.

Lemma ndpointer_from_param_ok (dt : np_dtype) (sh : list Z) (a : ndarray) (s : state) :
  dtype a = dt -> shape a = sh -> ndpointer_from_param dt sh a s = (Ok tt, s).
Proof.
  intros Hd Hs. unfold ndpointer_from_param.
  rewrite (bool_decide_eq_true_2 _ Hd), (bool_decide_eq_true_2 _ Hs). reflexivity.
Qed.

Section RunWrapper.

Variable K : native_routine.

(** The call into the library, once the three arrays fit the declared types:
    an integer [radius] lets the routine run on the three buffers. *)
Lemma call_rasterize_cloud_run (cloud raster raster_std : ndarray) (cs rs : list Z)
    (n k : Z) (xoff yoff resolution : pyfloat) (xsize ysize radius : Z)
    (sigma : pyfloat) (s : state) :
  argtypes s = Some (mk_argtypes cs rs) ->
  dtype cloud = float64 -> shape cloud = cs ->
  dtype raster = float32 -> shape raster = rs ->
  dtype raster_std = float32 -> shape raster_std = rs ->
  let c := mk_native_call cloud raster raster_std n k xoff yoff resolution
             xsize ysize radius sigma in
  let d1 := default [] (heap s !! base cloud) in
  let d2 := default [] (heap s !! base raster) in
  let d3 := default [] (heap s !! base raster_std) in
  let w := K c d1 d2 d3 in
  call_rasterize_cloud K cloud raster raster_std n k xoff yoff resolution
    xsize ysize radius sigma s
  = (Ok tt,
     mk_state (<[base raster_std := refill (w_raster_std w) d3]>
                 (<[base raster := refill (w_raster w) d2]>
                    (<[base cloud := refill (w_cloud w) d1]> (heap s))))
              (native_calls s ++ [c]) (argtypes s)).
Proof.
  intros Hat H1 H2 H3 H4 H5 H6 c d1 d2 d3 w. unfold call_rasterize_cloud.
  unfold bind at 1. unfold get_argtypes at 1. rewrite Hat.
  cbn [at_cloud_shape at_raster_shape].
  rewrite (bind_ok _ _ _ _ _ (ndpointer_from_param_ok _ _ _ s H1 H2)).
  rewrite (bind_ok _ _ _ _ _ (ndpointer_from_param_ok _ _ _ s H3 H4)).
  rewrite (bind_ok _ _ _ _ _ (ndpointer_from_param_ok _ _ _ s H5 H6)).
  unfold bind, c_int_from_param, ret, log_native_call, load, store.
  cbn [heap native_calls argtypes]. rewrite Hat. reflexivity.
Qed.

(** A [radius] that is a float is refused, before the routine is called. *)
Lemma call_rasterize_cloud_float_radius (cloud raster raster_std : ndarray)
    (cs rs : list Z) (n k : Z) (xoff yoff resolution : pyfloat) (xsize ysize : Z)
    (f : pyfloat) (sigma : pyfloat) (s : state) :
  argtypes s = Some (mk_argtypes cs rs) ->
  dtype cloud = float64 -> shape cloud = cs ->
  dtype raster = float32 -> shape raster = rs ->
  dtype raster_std = float32 -> shape raster_std = rs ->
  call_rasterize_cloud K cloud raster raster_std n k xoff yoff resolution
    xsize ysize (PFloat f) sigma s
  = (Err ArgumentError, s).
Proof.
  intros Hat H1 H2 H3 H4 H5 H6. unfold call_rasterize_cloud.
  unfold bind at 1. unfold get_argtypes at 1. rewrite Hat.
  cbn [at_cloud_shape at_raster_shape].
  rewrite (bind_ok _ _ _ _ _ (ndpointer_from_param_ok _ _ _ s H1 H2)).
  rewrite (bind_ok _ _ _ _ _ (ndpointer_from_param_ok _ _ _ s H3 H4)).
  rewrite (bind_ok _ _ _ _ _ (ndpointer_from_param_ok _ _ _ s H5 H6)).
  reflexivity.
Qed.

(** The three buffers of a call: distinct, and new. *)
Lemma fresh_buffers (h : gmap loc (list pyfloat)) (z1 z2 d : list pyfloat) :
  let l1 := fresh (dom h) in
  let h1 := <[l1 := z1]> h in
  let l2 := fresh (dom h1) in
  let h2 := <[l2 := z2]> h1 in
  let l3 := fresh (dom h2) in
  let h3 := <[l3 := d]> h2 in
  (h !! l1 = None /\ h !! l2 = None /\ h !! l3 = None) /\
  (l1 <> l2 /\ l1 <> l3 /\ l2 <> l3) /\
  (h3 !! l1 = Some z1 /\ h3 !! l2 = Some z2 /\ h3 !! l3 = Some d) /\
  h ⊆ h2 /\ h ⊆ h3.
Proof.
  intros l1 h1 l2 h2 l3 h3.
  assert (F1 : h !! l1 = None) by apply fresh_lookup_None.
  assert (F2 : h1 !! l2 = None) by apply fresh_lookup_None.
  assert (F3 : h2 !! l3 = None) by apply fresh_lookup_None.
  assert (S1 : h ⊆ h1) by (apply insert_subseteq, F1).
  assert (S2 : h1 ⊆ h2) by (apply insert_subseteq, F2).
  assert (S3 : h2 ⊆ h3) by (apply insert_subseteq, F3).
  assert (N12 : l1 <> l2).
  { intros E. unfold h1 in F2. rewrite <- E, lookup_insert_eq in F2. discriminate. }
  assert (N23 : l2 <> l3).
  { intros E. unfold h2 in F3. rewrite <- E, lookup_insert_eq in F3. discriminate. }
  assert (N13 : l1 <> l3).
  { intros E. unfold h2, h1 in F3.
    rewrite <- E, lookup_insert_ne, lookup_insert_eq in F3 by (apply not_eq_sym, N12).
    discriminate. }
  assert (G2 : h !! l2 = None).
  { destruct (h !! l2) eqn:G; [| reflexivity].
    apply (lookup_weaken _ _ _ _ G) in S1. congruence. }
  assert (G3 : h !! l3 = None).
  { destruct (h !! l3) eqn:G; [| reflexivity].
    assert (S12 : h ⊆ h2) by (etrans; eassumption).
    apply (lookup_weaken _ _ _ _ G) in S12. congruence. }
  repeat split; try assumption.
  - unfold h3, h2. rewrite !lookup_insert_ne by (apply not_eq_sym; assumption).
    apply lookup_insert_eq.
  - unfold h3. rewrite lookup_insert_ne by (apply not_eq_sym; assumption).
    apply lookup_insert_eq.
  - apply lookup_insert_eq.
  - etrans; eassumption.
  - etrans; [| exact S3]. etrans; eassumption.
Qed.

(** A call whose two buffer allocations succeed, step by step: the argument
    types are declared, three buffers are allocated, and the call into the
    library either is refused (a float [radius]) or runs the routine once;
    what is returned then depends only on the final reshape and on [std]. *)
Lemma plyflatten_steps (cloud : ndarray) (n m : Z) (xoff yoff resolution : pyfloat)
    (xsize ysize : Z) (radius : py_num) (sigma : pyfloat) (std : bool) (s : state) :
  shape cloud !! 0%nat = Some n ->
  shape cloud !! 1%nat = Some m ->
  forallb (Z.leb 0) [(xsize * ysize)%Z; (m - 2)%Z] = true ->
  let rs := [(xsize * ysize)%Z; (m - 2)%Z] in
  let zeros := repeat (Fin 0) (Z.to_nat (size_of rs)) in
  let l1 := fresh (dom (heap s)) in
  let h1 := <[l1 := zeros]> (heap s) in
  let l2 := fresh (dom h1) in
  let h2 := <[l2 := zeros]> h1 in
  let d := default [] (h2 !! base cloud) in
  let l3 := fresh (dom h2) in
  let h3 := <[l3 := d]> h2 in
  let t := Some (mk_argtypes (shape cloud) rs) in
  plyflatten K cloud xoff yoff resolution xsize ysize radius sigma std s
  = match radius with
    | PFloat _ => (Err ArgumentError, mk_state h3 (native_calls s) t)
    | PInt r =>
        let c := mk_native_call (mk_ndarray l3 float64 (shape cloud))
                   (mk_ndarray l1 float32 rs) (mk_ndarray l2 float32 rs)
                   n (m - 2) xoff yoff resolution xsize ysize r sigma in
        let w := K c d zeros zeros in
        (match fix_unknown_dimension (size_of rs) [ysize; xsize; (m - 2)%Z] with
         | Err e => Err e
         | Ok sh => if std then Err AttributeError else Ok (mk_ndarray l1 float32 sh)
         end,
         mk_state (<[l2 := refill (w_raster_std w) zeros]>
                     (<[l1 := refill (w_raster w) zeros]>
                        (<[l3 := refill (w_cloud w) d]> h3)))
                  (native_calls s ++ [c]) t)
    end.
Proof.
  intros E0 E1 Hz rs zeros l1 h1 l2 h2 d l3 h3 t.
  destruct (fresh_buffers (heap s) zeros zeros d)
    as (_ & _ & (L1 & L2 & L3) & _).
  fold l1 h1 l2 h2 l3 h3 in L1, L2, L3.
  unfold plyflatten, shape_at. rewrite E0, E1.
  unfold bind at 1. unfold ret at 1. unfold bind at 1. unfold ret at 1.
  cbv zeta.
  unfold bind at 1. unfold set_argtypes at 1.
  rewrite (bind_ok _ _ _ _ _ (np_zeros_ok _ float32 _ Hz)).
  cbn [heap native_calls argtypes].
  rewrite (bind_ok _ _ _ _ _ (np_zeros_ok _ float32 _ Hz)).
  cbn [heap native_calls argtypes].
  rewrite (bind_ok _ _ _ _ _ (astype_run cloud float64 _)).
  cbn [heap native_calls argtypes base].
  unfold np_ascontiguousarray. unfold bind at 1. unfold ret at 1.
  fold rs zeros l1 h1 l2 h2 d l3 h3 t.
  destruct radius as [r | f].
  - rewrite (bind_ok _ _ _ _ _
               (call_rasterize_cloud_run (mk_ndarray l3 float64 (shape cloud))
                  (mk_ndarray l1 float32 rs) (mk_ndarray l2 float32 rs)
                  (shape cloud) rs n (m - 2) xoff yoff
                  resolution xsize ysize r sigma (mk_state h3 (native_calls s) t)
                  eq_refl eq_refl eq_refl eq_refl eq_refl eq_refl eq_refl)).
    cbn [heap native_calls argtypes base].
    rewrite L1, L2, L3. cbn [default].
    unfold reshape. cbn [base dtype shape].
    unfold bind at 1, lift.
    destruct (fix_unknown_dimension _ _) as [sh | e]; [| reflexivity].
    unfold ret at 1. destruct std; [| reflexivity].
    unfold bind at 1. unfold ret at 1.
    reflexivity.
  - rewrite (bind_err _ _ _ _ _
               (call_rasterize_cloud_float_radius (mk_ndarray l3 float64 (shape cloud))
                  (mk_ndarray l1 float32 rs) (mk_ndarray l2 float32 rs)
                  (shape cloud) rs n (m - 2) xoff
                  yoff resolution xsize ysize f sigma (mk_state h3 (native_calls s) t)
                  eq_refl eq_refl eq_refl eq_refl eq_refl eq_refl eq_refl)).
    reflexivity.
Qed.

End RunWrapper.

(** ** The derived region of interest *)









(** *** What a derivation that returns has computed *)





















(** ** Shapes accepted and refused by the final reshape *)

Lemma raster_shape_ok (xsize ysize m : Z) :
  (0 <= xsize)%Z -> (0 <= ysize)%Z -> (2 <= m)%Z ->
  forallb (Z.leb 0) [(xsize * ysize)%Z; (m - 2)%Z] = true.
Proof.
  intros Hx Hy Hm. simpl.
  rewrite !andb_true_iff. repeat split; apply Z.leb_le; lia.
Qed.

Lemma raster_shape_refused (xsize ysize m : Z) :
  (m < 2)%Z \/ (xsize * ysize < 0)%Z ->
  forallb (Z.leb 0) [(xsize * ysize)%Z; (m - 2)%Z] = false.
Proof.
  intros H. simpl. rewrite !andb_false_iff.
  destruct H as [H | H]; [right; left | left]; apply Z.leb_gt; lia.
Qed.

Lemma reshape_ok (xsize ysize k : Z) :
  (0 <= xsize)%Z -> (0 <= ysize)%Z -> (0 <= k)%Z ->
  fix_unknown_dimension (size_of [(xsize * ysize)%Z; k]) [ysize; xsize; k]
  = Ok [ysize; xsize; k].
Proof.
  intros Hx Hy Hk. unfold fix_unknown_dimension.
  rewrite !filter_cons, !filter_nil.
  repeat (destruct (decide _); try lia).
  assert (E : (size_of [(xsize * ysize)%Z; k] =? size_of [ysize; xsize; k])%Z = true).
  { apply Z.eqb_eq. unfold size_of. simpl. lia. }
  rewrite E. reflexivity.
Qed.

Lemma reshape_refused (xsize ysize k : Z) :
  (xsize < 0)%Z \/ (ysize < 0)%Z -> (0 <= xsize * ysize)%Z -> (0 <= k)%Z ->
  fix_unknown_dimension (size_of [(xsize * ysize)%Z; k]) [ysize; xsize; k]
  = Err ValueError.
Proof.
  intros Hneg Hprod Hk. unfold fix_unknown_dimension.
  rewrite !filter_cons, !filter_nil.
  repeat (destruct (decide _); try lia); try reflexivity.
  - (* only ysize is negative: xsize = 0 *)
    assert (xsize = 0)%Z by nia. subst xsize.
    unfold size_of. simpl. reflexivity.
  - (* only xsize is negative: ysize = 0 *)
    assert (ysize = 0)%Z by nia. subst ysize.
    unfold size_of. simpl. reflexivity.
Qed.

Lemma shape_2d (cloud : ndarray) (n m : Z) :
  shape cloud = [n; m] ->
  shape cloud !! 0%nat = Some n /\ shape cloud !! 1%nat = Some m.
Proof. intros ->. split; reflexivity. Qed.

(** ** The rasterizer [plyflatten] *)

(** The failures that come before any allocation. *)
Lemma plyflatten_no_axis (K : native_routine) (cloud : ndarray)
    (xoff yoff resolution : pyfloat) (xsize ysize : Z) (radius : py_num)
    (sigma : pyfloat) (std : bool) (s : state) :
  shape cloud !! 0%nat = None \/ shape cloud !! 1%nat = None ->
  plyflatten K cloud xoff yoff resolution xsize ysize radius sigma std s
  = (Err IndexError, s).
Proof.
  intros H. unfold plyflatten, shape_at.
  destruct (shape cloud !! 0%nat) as [n |] eqn:E0.
  - destruct H as [H | H]; [discriminate |]. rewrite H.
    unfold bind at 1. unfold ret at 1. reflexivity.
  - reflexivity.
Qed.

Lemma plyflatten_refused_shape (K : native_routine) (cloud : ndarray) (n m : Z)
    (xoff yoff resolution : pyfloat) (xsize ysize : Z) (radius : py_num)
    (sigma : pyfloat) (std : bool) (s : state) :
  shape cloud !! 0%nat = Some n ->
  shape cloud !! 1%nat = Some m ->
  forallb (Z.leb 0) [(xsize * ysize)%Z; (m - 2)%Z] = false ->
  plyflatten K cloud xoff yoff resolution xsize ysize radius sigma std s
  = (Err ValueError,
     mk_state (heap s) (native_calls s)
       (Some (mk_argtypes (shape cloud) [(xsize * ysize)%Z; (m - 2)%Z]))).
Proof.
  intros E0 E1 Hz. unfold plyflatten, shape_at. rewrite E0, E1.
  unfold bind at 1. unfold ret at 1. unfold bind at 1. unfold ret at 1. cbv zeta.
  unfold bind at 1. unfold set_argtypes at 1.
  apply bind_err, np_zeros_err, Hz.
Qed.

(** The store after a call holds every buffer of the store before it. *)
Lemma heap_grows (h : gmap loc (list pyfloat)) (z1 z2 d a b c : list pyfloat) :
  let l1 := fresh (dom h) in
  let h1 := <[l1 := z1]> h in
  let l2 := fresh (dom h1) in
  let h2 := <[l2 := z2]> h1 in
  let l3 := fresh (dom h2) in
  let h3 := <[l3 := d]> h2 in
  h ⊆ <[l2 := a]> (<[l1 := b]> (<[l3 := c]> h3)).
Proof.
  intros l1 h1 l2 h2 l3 h3.
  destruct (fresh_buffers h z1 z2 d) as ((F1 & F2 & F3) & _ & _ & _ & S3).
  fold l1 h1 l2 h2 l3 h3 in F1, F2, F3, S3.
  apply map_subseteq_spec. intros i x Hi.
  assert (N1 : l1 <> i) by (intros E; rewrite E in F1; congruence).
  assert (N2 : l2 <> i) by (intros E; rewrite E in F2; congruence).
  assert (N3 : l3 <> i) by (intros E; rewrite E in F3; congruence).
  rewrite !lookup_insert_ne by assumption.
  exact (lookup_weaken _ _ _ _ Hi S3).
Qed.

(** The outcome of a call with an integer [radius] whose two buffer
    allocations succeed: the native routine is called once, on three buffers
    allocated by the call itself, and what is returned depends only on the
    final reshape and on [std]. *)
Lemma plyflatten_run (K : native_routine) (cloud : ndarray) (n m : Z)
    (xoff yoff resolution : pyfloat)
    (xsize ysize radius : Z) (sigma : pyfloat) (std : bool) (s : state) :
  shape cloud !! 0%nat = Some n ->
  shape cloud !! 1%nat = Some m ->
  forallb (Z.leb 0) [(xsize * ysize)%Z; (m - 2)%Z] = true ->
  exists (l1 l2 l3 : loc) (s' : state),
    let rs := [(xsize * ysize)%Z; (m - 2)%Z] in
    plyflatten K cloud xoff yoff resolution xsize ysize radius sigma std s
    = (match fix_unknown_dimension (size_of rs) [ysize; xsize; (m - 2)%Z] with
       | Err e => Err e
       | Ok sh => if std then Err AttributeError else Ok (mk_ndarray l1 float32 sh)
       end, s') /\
    native_calls s'
    = native_calls s ++
        [mk_native_call (mk_ndarray l3 float64 (shape cloud))
           (mk_ndarray l1 float32 rs) (mk_ndarray l2 float32 rs)
           n (m - 2) xoff yoff resolution xsize ysize radius sigma] /\
    heap s ⊆ heap s'.
Proof.
  intros E0 E1 Hz.
  assert (H := plyflatten_steps K cloud n m xoff yoff resolution xsize ysize
                 (PInt radius) sigma std s E0 E1 Hz).
  cbv beta iota zeta in H.
  eexists _, _, _, _. cbv zeta. split; [exact H |].
  split; [reflexivity |]. cbn [heap]. apply heap_grows.
Qed.

Section RunContents.

Variable K : native_routine.


End RunContents.

(** Every call either fails before allocating anything, no buffer touched and
    nothing called, or runs as [plyflatten_steps] says. *)
Lemma plyflatten_cases (K : native_routine) (cloud : ndarray)
    (xoff yoff resolution : pyfloat) (xsize ysize : Z) (radius : py_num)
    (sigma : pyfloat) (std : bool) (s : state) :
  (exists e s',
     plyflatten K cloud xoff yoff resolution xsize ysize radius sigma std s = (Err e, s') /\
     (e = IndexError \/ e = ValueError) /\
     heap s' = heap s /\ native_calls s' = native_calls s) \/
  (exists n m,
     shape cloud !! 0%nat = Some n /\ shape cloud !! 1%nat = Some m /\
     forallb (Z.leb 0) [(xsize * ysize)%Z; (m - 2)%Z] = true).
Proof.
  destruct (shape cloud !! 0%nat) as [n |] eqn:E0.
  - destruct (shape cloud !! 1%nat) as [m |] eqn:E1.
    + destruct (forallb (Z.leb 0) [(xsize * ysize)%Z; (m - 2)%Z]) eqn:Hz.
      * right. exists n, m. auto.
      * left. eexists ValueError, _.
        split; [apply (plyflatten_refused_shape K cloud n m); assumption |]. auto.
    + left. exists IndexError, s.
      split; [apply plyflatten_no_axis; auto |]. auto.
  - left. exists IndexError, s.
    split; [apply plyflatten_no_axis; auto |]. auto.
Qed.

(** With [std=False] and a valid input, the call returns the mean raster, a
    float32 array of shape [(ysize, xsize, k)], after one call of the native
    routine. *)
Lemma plyflatten_mean_run (K : native_routine) (cloud : ndarray) (n m : Z)
    (xoff yoff resolution : pyfloat) (xsize ysize radius : Z) (sigma : pyfloat)
    (s : state) :
  shape cloud = [n; m] -> (2 <= m)%Z -> (0 <= xsize)%Z -> (0 <= ysize)%Z ->
  exists (a : ndarray) (s' : state) (c : native_call),
    plyflatten K cloud xoff yoff resolution xsize ysize radius sigma false s = (Ok a, s') /\
    shape a = [ysize; xsize; (m - 2)%Z] /\ dtype a = float32 /\
    native_calls s' = native_calls s ++ [c].
Proof.
  intros Hsh Hm Hx Hy. destruct (shape_2d _ _ _ Hsh) as [E0 E1].
  destruct (plyflatten_run K cloud n m xoff yoff resolution xsize ysize radius sigma
              false s E0 E1 (raster_shape_ok _ _ _ Hx Hy Hm))
    as (l1 & l2 & l3 & s' & Hrun & Hcalls & _).
  cbv zeta in Hrun, Hcalls. rewrite reshape_ok in Hrun; [| lia ..].
  eexists _, s', _. split; [exact Hrun |].
  split; [reflexivity |]. split; [reflexivity | exact Hcalls].
Qed.

(** C1 (second half, as the code has it): with [std=True] and a valid input
    the call does not return the (ysize, xsize, 2*k) array of its docstring:
    [raster.dstack] is looked up on the array, which has no such attribute,
    and the call raises AttributeError. *)
Theorem plyflatten_std_raises (K : native_routine) (cloud : ndarray) (n m : Z)
    (xoff yoff resolution : pyfloat) (xsize ysize radius : Z) (sigma : pyfloat)
    (s : state) :
  shape cloud = [n; m] -> (2 <= m)%Z -> (0 < xsize)%Z -> (0 < ysize)%Z ->
  fst (plyflatten K cloud xoff yoff resolution xsize ysize radius sigma true s)
  = Err AttributeError.
Proof.
  intros Hsh Hm Hx Hy. destruct (shape_2d _ _ _ Hsh) as [E0 E1].
  destruct (plyflatten_run K cloud n m xoff yoff resolution xsize ysize radius sigma
              true s E0 E1
              (raster_shape_ok _ _ _ (Z.lt_le_incl _ _ Hx) (Z.lt_le_incl _ _ Hy) Hm))
    as (l1 & l2 & l3 & s' & Hrun & _).
  cbv zeta in Hrun. rewrite reshape_ok in Hrun; [| lia ..].
  rewrite Hrun. reflexivity.
Qed.

Lemma plyflatten_std_raises_witness :
  fst (plyflatten idle_rasterize_cloud cloud1 (Fin 0) (Fin 1) (Fin 1) 1 1 0 PosInf true store1)
  = Err AttributeError.
Proof.
  apply (plyflatten_std_raises idle_rasterize_cloud cloud1 1 3).
  - reflexivity.
  - lia.
  - lia.
  - lia.
Defined.




(** The call with a radius of -1.5 is refused by ctypes. *)
Example plyflatten_float_radius :
  fst (plyflatten idle_rasterize_cloud cloud1 (Fin 0) (Fin 1) (Fin 1) 1 1
         (PFloat (Fin (- (3 # 2)))) PosInf false store1)
  = Err ArgumentError.
Proof. vm_compute. reflexivity. Qed.

(** C6 as stated does not hold: a cloud of one column makes the call fail
    with numpy's ValueError, a cloud of one dimension with IndexError; no
    InvalidShapeError is raised. *)
Lemma plyflatten_one_column_raises_ValueError :
  fst (plyflatten idle_rasterize_cloud one_column (Fin 0) (Fin 1) (Fin 1) 1 1 0 PosInf
         false store_flat)
  = Err ValueError /\
  fst (plyflatten idle_rasterize_cloud flat_cloud (Fin 0) (Fin 1) (Fin 1) 1 1 0 PosInf
         false store_flat)
  = Err IndexError /\
  fst (plyflatten idle_rasterize_cloud one_column (Fin 0) (Fin 1) (Fin 1) 1 1 0 PosInf
         false store_flat)
  <> Err (OtherException "InvalidShapeError").
Proof.
  split; [vm_compute; reflexivity |]. split; [vm_compute; reflexivity |].
  vm_compute. discriminate.
Qed.

(** C6, amended.  A cloud of fewer than two dimensions makes the call fail
    with IndexError, the state untouched.  Otherwise, with [m] the second
    dimension of the cloud: when [m < 2] or [xsize * ysize < 0] the call fails
    with numpy's ValueError before any buffer is allocated and before the
    native routine is called.  With [m >= 2] and an integer radius: when
    [xsize] and [ysize] are both negative, or one of them is zero, no
    exception is raised before the native routine is called, provided the
    rasters and the float64 copy of the cloud are within the sizes numpy can
    address (fewer than [2^63] bytes); and when both are negative the call
    fails with ValueError all the same, at the final reshape once the
    routine has returned. *)
Theorem plyflatten_bad_shape_raises (K : native_routine) (cloud : ndarray)
    (xoff yoff resolution : pyfloat) (xsize ysize : Z) (radius : py_num)
    (sigma : pyfloat) (std : bool) (s : state) :
  let out := plyflatten K cloud xoff yoff resolution xsize ysize radius sigma std s in
  match shape cloud with
  | _ :: m :: _ =>
      ((m < 2)%Z \/ (xsize * ysize < 0)%Z ->
       fst out = Err ValueError /\
       heap (snd out) = heap s /\ native_calls (snd out) = native_calls s) /\
      (forall r : Z, radius = PInt r -> (2 <= m)%Z ->
         ((xsize < 0)%Z -> (ysize < 0)%Z -> fst out = Err ValueError) /\
         (np_addressable float32 [(xsize * ysize)%Z; (m - 2)%Z] ->
          np_addressable float64 (shape cloud) ->
          ((xsize < 0)%Z /\ (ysize < 0)%Z) \/ xsize = 0%Z \/ ysize = 0%Z ->
          exists c, native_calls (snd out) = native_calls s ++ [c]))
  | _ => out = (Err IndexError, s)
  end.
Proof.
  intros out. subst out.
  destruct (shape cloud) as [| n [| m rest]] eqn:Hsh.
  - apply plyflatten_no_axis. rewrite Hsh. auto.
  - apply plyflatten_no_axis. rewrite Hsh. auto.
  - assert (E0 : shape cloud !! 0%nat = Some n) by (rewrite Hsh; reflexivity).
    assert (E1 : shape cloud !! 1%nat = Some m) by (rewrite Hsh; reflexivity).
    split.
    + intros Hbad.
      rewrite (plyflatten_refused_shape K cloud n m xoff yoff resolution xsize ysize
                 radius sigma std s E0 E1 (raster_shape_refused _ _ _ Hbad)).
      auto.
    + intros r -> Hm.
      assert (Hcalled : (0 <= xsize * ysize)%Z ->
                exists c,
                  native_calls
                    (snd (plyflatten K cloud xoff yoff resolution xsize ysize r sigma std s))
                  = native_calls s ++ [c]).
      { intros Hp.
        assert (Hz : forallb (Z.leb 0) [(xsize * ysize)%Z; (m - 2)%Z] = true).
        { simpl. rewrite !andb_true_iff. repeat split; apply Z.leb_le; lia. }
        destruct (plyflatten_run K cloud n m xoff yoff resolution xsize ysize r sigma
                    std s E0 E1 Hz) as (l1 & l2 & l3 & s' & Hrun & Hcalls & _).
        cbv zeta in Hrun, Hcalls. rewrite Hrun. cbn [snd]. eauto. }
      split.
      * intros Hx Hy.
        assert (Hp : (0 <= xsize * ysize)%Z) by nia.
        assert (Hz : forallb (Z.leb 0) [(xsize * ysize)%Z; (m - 2)%Z] = true).
        { simpl. rewrite !andb_true_iff. repeat split; apply Z.leb_le; lia. }
        destruct (plyflatten_run K cloud n m xoff yoff resolution xsize ysize r sigma
                    std s E0 E1 Hz) as (l1 & l2 & l3 & s' & Hrun & _).
        cbv zeta in Hrun. rewrite reshape_refused in Hrun; [| lia ..].
        rewrite Hrun. reflexivity.
      * intros _ _ Hsizes. apply Hcalled.
        destruct Hsizes as [[Hx Hy] | [-> | ->]]; [nia | lia | lia].
Qed.

Lemma plyflatten_bad_shape_raises_witness :
  let out := plyflatten idle_rasterize_cloud cloud1 (Fin 0) (Fin 1) (Fin 1) (-1) (-1) 0
               PosInf false store1 in
  fst out = Err ValueError /\
  exists c, native_calls (snd out) = native_calls store1 ++ [c].
Proof.
  intros out.
  destruct (proj2 (plyflatten_bad_shape_raises idle_rasterize_cloud cloud1 (Fin 0) (Fin 1)
                     (Fin 1) (-1) (-1) 0 PosInf false store1) 0%Z eq_refl ltac:(lia))
    as [Herr Hcall].
  split; [apply Herr; lia |].
  apply Hcall; [reflexivity | reflexivity | left; lia].
Defined.

(** C9 as stated does not hold: a call leaves the argument types of
    [lib.rasterize_cloud] declared, an effect on the library object that
    outlives the call and is none of the rasters. *)
Lemma plyflatten_declares_argtypes :
  argtypes store1 = None /\
  argtypes (snd (plyflatten idle_rasterize_cloud cloud1 (Fin 0) (Fin 1) (Fin 1) 1 1 0
                   PosInf false store1))
  = Some (mk_argtypes [1; 3]%Z [1; 1]%Z).
Proof. split; [reflexivity | vm_compute; reflexivity]. Qed.

(** C9, amended: a call of the rasterizer leaves every buffer that existed
    before the call as it was, the buffer of the input cloud among them,
    whatever the native routine writes into the buffers it is handed: the
    store after the call extends the store before it.  Besides its result the
    call has one lasting effect: on a cloud of at least two dimensions it
    assigns the argument types of [lib.rasterize_cloud]; on any other cloud it
    changes nothing. *)
Theorem plyflatten_preserves_store (K : native_routine) (cloud : ndarray)
    (xoff yoff resolution : pyfloat) (xsize ysize : Z) (radius : py_num)
    (sigma : pyfloat) (std : bool) (s : state) :
  let s' := snd (plyflatten K cloud xoff yoff resolution xsize ysize radius sigma std s) in
  heap s ⊆ heap s' /\
  match shape cloud with
  | _ :: m :: _ =>
      argtypes s' = Some (mk_argtypes (shape cloud) [(xsize * ysize)%Z; (m - 2)%Z])
  | _ => s' = s
  end.
Proof.
  intros s'. subst s'.
  destruct (shape cloud) as [| n [| m rest]] eqn:Hsh.
  - rewrite plyflatten_no_axis by (rewrite Hsh; auto). auto.
  - rewrite plyflatten_no_axis by (rewrite Hsh; auto). auto.
  - assert (E0 : shape cloud !! 0%nat = Some n) by (rewrite Hsh; reflexivity).
    assert (E1 : shape cloud !! 1%nat = Some m) by (rewrite Hsh; reflexivity).
    rewrite <- Hsh.
    destruct (forallb (Z.leb 0) [(xsize * ysize)%Z; (m - 2)%Z]) eqn:Hz.
    + assert (H := plyflatten_steps K cloud n m xoff yoff resolution xsize ysize radius
                     sigma std s E0 E1 Hz).
      cbv zeta in H. rewrite H.
      destruct radius as [r | f]; cbn [snd heap argtypes].
      * split; [apply heap_grows | reflexivity].
      * split; [| reflexivity].
        destruct (fresh_buffers (heap s)
                    (repeat (Fin 0) (Z.to_nat (size_of [(xsize * ysize)%Z; (m - 2)%Z])))
                    (repeat (Fin 0) (Z.to_nat (size_of [(xsize * ysize)%Z; (m - 2)%Z])))
                    (default [] (<[fresh (dom (<[fresh (dom (heap s)) :=
                         repeat (Fin 0) (Z.to_nat (size_of [(xsize * ysize)%Z; (m - 2)%Z]))]>
                         (heap s))) :=
                         repeat (Fin 0) (Z.to_nat (size_of [(xsize * ysize)%Z; (m - 2)%Z]))]>
                       (<[fresh (dom (heap s)) :=
                         repeat (Fin 0) (Z.to_nat (size_of [(xsize * ysize)%Z; (m - 2)%Z]))]>
                         (heap s)) !! base cloud)))
          as (_ & _ & _ & _ & S3).
        exact S3.
    + rewrite (plyflatten_refused_shape K cloud n m xoff yoff resolution xsize ysize
                 radius sigma std s E0 E1 Hz).
      cbn [snd heap argtypes]. auto.
Qed.

Lemma plyflatten_preserves_store_witness :
  let s' := snd (plyflatten idle_rasterize_cloud cloud1 (Fin 0) (Fin 1) (Fin 1) 1 1 0
                   PosInf false store1) in
  heap s' !! base cloud1 = Some [Fin (1 # 2); Fin (1 # 2); Fin 10] /\
  argtypes s' = Some (mk_argtypes [1; 3]%Z [(1 * 1)%Z; (3 - 2)%Z]).
Proof.
  intros s'.
  destruct (plyflatten_preserves_store idle_rasterize_cloud cloud1 (Fin 0) (Fin 1) (Fin 1)
              1 1 0 PosInf false store1) as [Hsub Hat].
  split; [| exact Hat].
  apply (lookup_weaken (heap store1)); [reflexivity | exact Hsub].
Defined.

Lemma Forall_refill (P : pyfloat -> Prop) (w : nat -> pyfloat) (old : list pyfloat) :
  (forall i, P (w i)) -> Forall P (refill w old).
Proof.
  intros H. unfold refill. generalize (seq 0 (length old)).
  intros l. induction l as [| i l IH]; simpl; constructor; [apply H | exact IH].
Qed.

(** C10: the raster a call returns is a float32 array whose elements are all
    values of binary32, whatever the native routine computes for them, while
    the routine was handed a float64 copy of the cloud: the array returned is
    a view of the raster buffer the routine filled. *)
Theorem plyflatten_returns_float32 (K : native_routine) (cloud : ndarray)
    (xoff yoff resolution : pyfloat) (xsize ysize : Z) (radius : py_num)
    (sigma : pyfloat) (std : bool) (s s' : state) (a : ndarray) :
  plyflatten K cloud xoff yoff resolution xsize ysize radius sigma std s = (Ok a, s') ->
  dtype a = float32 /\
  (exists buf, heap s' !! base a = Some buf /\ Forall is_float32 buf) /\
  exists c, native_calls s' = native_calls s ++ [c] /\
            dtype (nc_cloud c) = float64 /\
            dtype (nc_raster c) = float32 /\
            base (nc_raster c) = base a.
Proof.
  intros Hok.
  destruct (plyflatten_cases K cloud xoff yoff resolution xsize ysize radius sigma std s)
    as [(e & s0 & Hrun & _) | (n & m & E0 & E1 & Hz)].
  - rewrite Hrun in Hok. discriminate.
  - assert (H := plyflatten_steps K cloud n m xoff yoff resolution xsize ysize radius
                   sigma std s E0 E1 Hz).
    cbv zeta in H. rewrite H in Hok.
    destruct radius as [r | f]; [| discriminate].
    destruct (fix_unknown_dimension _ _) as [sh | e]; [| discriminate].
    destruct std; [discriminate |].
    injection Hok as <- <-. cbn [dtype base heap native_calls].
    split; [reflexivity |]. split.
    + eexists. split.
      * rewrite lookup_insert_ne; [apply lookup_insert_eq |].
        apply not_eq_sym.
        apply (fresh_buffers (heap s)
                 (repeat (Fin 0) (Z.to_nat (size_of [(xsize * ysize)%Z; (m - 2)%Z])))
                 (repeat (Fin 0) (Z.to_nat (size_of [(xsize * ysize)%Z; (m - 2)%Z])))
                 []).
      * apply Forall_refill. intros i. apply float32_of_is_float32.
    + eexists. split; [reflexivity |]. repeat split.
Qed.

(** A routine that computes one tenth for every cell leaves the float
    nearest to it in the raster returned, 0.100000001490116..., and not one
    tenth, which is no value of binary32. *)
Lemma plyflatten_returns_float32_witness :
  exists (a : ndarray) (s' : state),
    plyflatten tenth_rasterize_cloud cloud1 (Fin 0) (Fin 1) (Fin 1) 1 1 0 PosInf false store1
    = (Ok a, s') /\
    heap s' !! base a = Some [Fin (13421773 # 134217728)] /\
    ~ is_float32 (Fin (1 # 10)) /\
    dtype a = float32 /\
    (exists buf, heap s' !! base a = Some buf /\ Forall is_float32 buf) /\
    exists c, native_calls s' = native_calls store1 ++ [c] /\
              dtype (nc_cloud c) = float64 /\
              dtype (nc_raster c) = float32 /\
              base (nc_raster c) = base a.
Proof.
  assert (Hrun : exists a s',
            plyflatten tenth_rasterize_cloud cloud1 (Fin 0) (Fin 1) (Fin 1) 1 1 0 PosInf
              false store1 = (Ok a, s') /\
            heap s' !! base a = Some [Fin (13421773 # 134217728)]).
  { eexists _, _. split; [vm_compute; reflexivity | vm_compute; reflexivity]. }
  destruct Hrun as (a & s' & Hrun & Hbuf).
  exists a, s'. split; [exact Hrun |]. split; [exact Hbuf |].
  split; [vm_compute; discriminate |].
  exact (plyflatten_returns_float32 _ _ _ _ _ _ _ _ _ _ _ _ _ Hrun).
Defined.

(** ** The entry point [plyflatten_from_plyfiles_list] *)

Lemma bind_inv {A B} (m : M A) (k : A -> M B) (s s' : state) (b : B) :
  bind m k s = (Ok b, s') ->
  exists a s1, m s = (Ok a, s1) /\ k a s1 = (Ok b, s').
Proof.
  unfold bind. destruct (m s) as [[a | e] s1]; intros H; [| discriminate].
  exists a, s1. auto.
Qed.

Lemma mapM_load_run (arrs : list ndarray) (s : state) :
  mapM (fun a => load (base a)) arrs s
  = (Ok (map (fun a => default [] (heap s !! base a)) arrs), s).
Proof.
  induction arrs as [| a arrs IH]; simpl; [reflexivity |].
  unfold bind at 1. unfold load at 1.
  unfold bind at 1. rewrite IH. reflexivity.
Qed.

Section EntryPoint.

Variable K : native_routine.
Variable reader : string -> result (np_dtype * list Z * list pyfloat).

(** Reading files that hold no point yields arrays without rows, and calls
    nothing in the native library. *)
Lemma read_empty_files (clouds_list : list string) (s : state) :
  Forall (fun path => exists dt m d, reader path = Ok (dt, [0%Z; m], d) /\ (2 <= m)%Z)
         clouds_list ->
  exists arrs s1,
    mapM (fun cloud => cloud_data <- read_cloud reader cloud ;;
                       astype cloud_data float64) clouds_list s = (Ok arrs, s1) /\
    native_calls s1 = native_calls s /\
    Forall no_rows arrs /\
    length arrs = length clouds_list.
Proof.
  intros Hall. revert s.
  induction Hall as [| path l (dt & m & d & Hread & Hm) _ IH]; intros s.
  - exists [], s. repeat split. constructor.
  - simpl.
    assert (Hfirst : exists a s0,
              (cloud_data <- read_cloud reader path ;; astype cloud_data float64) s
              = (Ok a, s0) /\ native_calls s0 = native_calls s /\ no_rows a).
    { unfold read_cloud. unfold bind at 2. unfold lift. rewrite Hread.
      eexists _, _. split; [reflexivity |]. split; [reflexivity |].
      exists m. split; [reflexivity | exact Hm]. }
    destruct Hfirst as (a & s0 & Hrun & Hcalls & Ha).
    destruct (IH s0) as (arrs & s1 & Hrest & Hcalls1 & Harrs & Hlen).
    exists (a :: arrs), s1.
    rewrite (bind_ok _ _ _ _ _ Hrun), (bind_ok _ _ _ _ _ Hrest).
    repeat split.
    + congruence.
    + constructor; assumption.
    + simpl. congruence.
Qed.

Lemma no_rows_sum (arrs : list ndarray) :
  Forall no_rows arrs ->
  fold_right Z.add 0%Z (map (fun a => hd 0%Z (shape a)) arrs) = 0%Z.
Proof.
  induction 1 as [| a arrs (m & Hsh & _) _ IH]; simpl; [reflexivity |].
  rewrite Hsh, IH. reflexivity.
Qed.

(** Concatenating arrays without rows fails, or yields an array without rows;
    either way the native library is not called. *)
Lemma concatenate_no_rows (arrs : list ndarray) (s : state) :
  Forall no_rows arrs ->
  (np_concatenate arrs s = (Err ValueError, s)) \/
  (exists fc s1, np_concatenate arrs s = (Ok fc, s1) /\
                 native_calls s1 = native_calls s /\ no_rows fc).
Proof.
  intros Hall. destruct Hall as [| a0 rest (m0 & Hsh0 & Hm0) Hrest].
  - left. reflexivity.
  - unfold np_concatenate. rewrite Hsh0.
    destruct (forallb _ (a0 :: rest)) eqn:Hchk; [| left; reflexivity].
    right. rewrite (bind_ok _ _ _ _ _ (mapM_load_run (a0 :: rest) s)).
    eexists _, _. split; [reflexivity |]. split; [reflexivity |].
    exists m0. cbn [shape]. split; [| exact Hm0].
    rewrite (no_rows_sum (a0 :: rest)); [reflexivity |].
    constructor; [exists m0; auto | exact Hrest].
Qed.

Lemma derive_roi_no_rows (fc : ndarray) (resolution : pyfloat) (s : state) :
  no_rows fc -> derive_roi fc resolution s = (Err ValueError, s).
Proof.
  intros (m & Hsh & Hm). unfold derive_roi, getcol. rewrite Hsh.
  assert (H0 : (Z.of_nat 0 <? m)%Z = true) by (apply Z.ltb_lt; lia).
  assert (H1 : (Z.of_nat 1 <? m)%Z = true) by (apply Z.ltb_lt; lia).
  rewrite H0, H1. reflexivity.
Qed.

End EntryPoint.

(** C4 as stated does not hold: a file list without any point makes the call
    fail with numpy's ValueError; no EmptyInputError is raised. *)
Lemma empty_input_raises_ValueError :
  fst (plyflatten_from_plyfiles_list idle_rasterize_cloud sample_reader
         sample_crs_from_ply sample_crs_proj sample_rasterio_crs
         ["none.ply"] (Fin 1) 0 None None false empty_store)
  = Err ValueError /\
  fst (plyflatten_from_plyfiles_list idle_rasterize_cloud sample_reader
         sample_crs_from_ply sample_crs_proj sample_rasterio_crs
         ["none.ply"] (Fin 1) 0 None None false empty_store)
  <> Err (OtherException "EmptyInputError").
Proof.
  split; [vm_compute; reflexivity |]. vm_compute. discriminate.
Qed.

(** C4, amended: when the files hold no point (each is read as an array of
    zero rows and at least two columns) and no region of interest is
    supplied, the call fails with numpy's ValueError, and does so before the
    native routine is called. *)
Theorem empty_input_fails_before_rasterizing (K : native_routine)
    (reader : string -> result (np_dtype * list Z * list pyfloat))
    (crs_from_ply : string -> result (pyvalue * pyvalue))
    (crs_proj : pyvalue -> pyvalue -> result pyvalue)
    (rasterio_crs : pyvalue -> result pyvalue)
    (clouds_list : list string) (resolution : pyfloat) (radius : Z)
    (sigma : option pyfloat) (std : bool) (s : state) :
  Forall (fun path => exists dt m d, reader path = Ok (dt, [0%Z; m], d) /\ (2 <= m)%Z)
         clouds_list ->
  let out := plyflatten_from_plyfiles_list K reader crs_from_ply crs_proj rasterio_crs
               clouds_list resolution radius None sigma std s in
  fst out = Err ValueError /\ native_calls (snd out) = native_calls s.
Proof.
  intros Hall out. subst out. unfold plyflatten_from_plyfiles_list.
  destruct (read_empty_files reader clouds_list s Hall)
    as (arrs & s1 & Hread & Hcalls1 & Harrs & _).
  rewrite (bind_ok _ _ _ _ _ Hread).
  destruct (concatenate_no_rows arrs s1 Harrs)
    as [Hcat | (fc & s2 & Hcat & Hcalls2 & Hfc)].
  - rewrite (bind_err _ _ _ _ _ Hcat). split; [reflexivity | exact Hcalls1].
  - rewrite (bind_ok _ _ _ _ _ Hcat).
    rewrite (bind_err _ _ _ _ _ (derive_roi_no_rows fc resolution s2 Hfc)).
    split; [reflexivity | cbn [snd]; congruence].
Qed.

Lemma empty_input_fails_before_rasterizing_witness :
  let out := plyflatten_from_plyfiles_list idle_rasterize_cloud sample_reader
               sample_crs_from_ply sample_crs_proj sample_rasterio_crs
               ["none.ply"; "none.ply"] (Fin 1) 0 None None false empty_store in
  fst out = Err ValueError /\ native_calls (snd out) = native_calls empty_store.
Proof.
  apply (empty_input_fails_before_rasterizing idle_rasterize_cloud sample_reader).
  repeat constructor; exists float32, 3%Z, []; (split; [reflexivity | lia]).
Defined.

(** A call of the rasterizer that returns was made with [std=False] and an
    integer radius, and has called the native routine once, with the
    arguments it was given; the array returned is a view of the raster handed
    to the routine and has the two sizes asked for. *)
Lemma plyflatten_ok_inv (K : native_routine) (cloud : ndarray)
    (xoff yoff resolution : pyfloat) (xsize ysize : Z) (radius : py_num)
    (sigma : pyfloat) (std : bool) (s s' : state) (a : ndarray) :
  plyflatten K cloud xoff yoff resolution xsize ysize radius sigma std s = (Ok a, s') ->
  std = false /\
  exists (r : Z) (c : native_call),
    radius = PInt r /\
    native_calls s' = native_calls s ++ [c] /\
    nc_xoff c = xoff /\ nc_yoff c = yoff /\ nc_resolution c = resolution /\
    nc_xsize c = xsize /\ nc_ysize c = ysize /\
    nc_radius c = r /\ nc_sigma c = sigma /\
    base (nc_raster c) = base a /\
    dtype (nc_cloud c) = float64 /\ shape (nc_cloud c) = shape cloud.
Proof.
  intros Hok.
  destruct (plyflatten_cases K cloud xoff yoff resolution xsize ysize radius sigma std s)
    as [(e & s0 & Hrun & _) | (n & m & E0 & E1 & Hz)].
  - rewrite Hrun in Hok. discriminate.
  - assert (H := plyflatten_steps K cloud n m xoff yoff resolution xsize ysize radius
                   sigma std s E0 E1 Hz).
    cbv zeta in H. rewrite H in Hok.
    destruct radius as [r | f]; [| discriminate].
    destruct (fix_unknown_dimension _ _) as [sh | e]; [| discriminate].
    destruct std; [discriminate |].
    injection Hok as <- <-.
    split; [reflexivity |].
    eexists r, _. split; [reflexivity |]. split; [reflexivity |]. repeat split.
Qed.

(** A call that returns has called the native routine once, with the region
    of interest and the resolution it was given. *)
Lemma plyflatten_ok_call (K : native_routine) (cloud : ndarray)
    (xoff yoff resolution : pyfloat) (xsize ysize radius : Z) (sigma : pyfloat)
    (std : bool) (s s' : state) (a : ndarray) :
  plyflatten K cloud xoff yoff resolution xsize ysize radius sigma std s = (Ok a, s') ->
  exists c, native_calls s' = native_calls s ++ [c] /\
            nc_xoff c = xoff /\ nc_yoff c = yoff /\ nc_resolution c = resolution /\
            nc_xsize c = xsize /\ nc_ysize c = ysize.
Proof.
  intros Hok.
  destruct (plyflatten_ok_inv _ _ _ _ _ _ _ _ _ _ _ _ _ Hok)
    as (_ & r & c & _ & Hcalls & Hx & Hy & Hres & Hxs & Hys & _).
  exists c. auto 10.
Qed.

Lemma lift_inv {A} (r : result A) (s s' : state) (a : A) :
  lift r s = (Ok a, s') -> r = Ok a /\ s' = s.
Proof. unfold lift. intros H. injection H as -> ->. auto. Qed.

(** C8: the profile of a call that returns holds the affine transform
    [(resolution, 0, xoff, 0, -resolution, yoff)], where [(xoff, yoff)] is the
    origin of the region of interest used for the rasterization (the one
    supplied, or else the one derived), and a no-data value that is
    not-a-number. *)
Theorem profile_of_successful_call (K : native_routine)
    (reader : string -> result (np_dtype * list Z * list pyfloat))
    (crs_from_ply : string -> result (pyvalue * pyvalue))
    (crs_proj : pyvalue -> pyvalue -> result pyvalue)
    (rasterio_crs : pyvalue -> result pyvalue)
    (clouds_list : list string) (resolution : pyfloat) (radius : Z)
    (roi : option roi_t) (sigma : option pyfloat) (std : bool)
    (s s' : state) (raster : ndarray) (profile : gmap string pyvalue) :
  plyflatten_from_plyfiles_list K reader crs_from_ply crs_proj rasterio_crs
    clouds_list resolution radius roi sigma std s = (Ok (raster, profile), s') ->
  profile !! "nodata" = Some (VFloat NaN) /\
  exists r : roi_t,
    profile !! "transform"
      = Some (VAffine resolution (Fin 0) (roi_xoff r) (Fin 0) (fneg resolution) (roi_yoff r)) /\
    match roi with
    | Some r0 => r = r0
    | None => exists full_cloud s1 s2, derive_roi full_cloud resolution s1 = (Ok r, s2)
    end /\
    exists c, last (native_calls s') = Some c /\
              nc_xoff c = roi_xoff r /\ nc_yoff c = roi_yoff r /\
              nc_xsize c = roi_xsize r /\ nc_ysize c = roi_ysize r /\
              nc_resolution c = resolution.
Proof.
  intros Hok. unfold plyflatten_from_plyfiles_list in Hok.
  apply bind_inv in Hok as (arrs & s1 & _ & Hok).
  apply bind_inv in Hok as (fc & s2 & _ & Hok).
  apply bind_inv in Hok as (r & s3 & Hroi & Hok).
  apply bind_inv in Hok as (fc' & s4 & _ & Hok).
  apply bind_inv in Hok as (ra & s5 & Hfl & Hok).
  apply bind_inv in Hok as (first & s6 & Hfirst & Hok).
  apply bind_inv in Hok as (cc & s7 & Hcc & Hok).
  apply bind_inv in Hok as (p & s8 & Hp & Hok).
  apply bind_inv in Hok as (crs & s9 & Hcrs & Hok).
  unfold ret in Hok. injection Hok as <- <- <-.
  apply lift_inv in Hcrs as [_ ->]. apply lift_inv in Hp as [_ ->].
  apply lift_inv in Hcc as [_ ->].
  assert (s6 = s5) by (destruct clouds_list; [discriminate | injection Hfirst; auto]).
  subst s6.
  split; [reflexivity |].
  exists r. split; [reflexivity |]. split.
  - destruct roi as [r0 |].
    + injection Hroi as -> _. reflexivity.
    + eauto.
  - destruct (plyflatten_ok_call _ _ _ _ _ _ _ _ _ _ _ _ _ Hfl)
      as (c & Hcalls & Hx & Hy & Hres & Hxs & Hys).
    exists c. rewrite Hcalls, last_snoc. auto 10.
Qed.

Lemma profile_of_successful_call_witness :
  exists (raster : ndarray) (profile : gmap string pyvalue) (s' : state),
    plyflatten_from_plyfiles_list idle_rasterize_cloud sample_reader
      sample_crs_from_ply sample_crs_proj sample_rasterio_crs
      ["two.ply"] (Fin (1 # 2)) 0 None None false empty_store
    = (Ok (raster, profile), s') /\
    profile !! "nodata" = Some (VFloat NaN) /\
    exists r : roi_t,
      profile !! "transform"
        = Some (VAffine (Fin (1 # 2)) (Fin 0) (roi_xoff r) (Fin 0)
                        (fneg (Fin (1 # 2))) (roi_yoff r)) /\
      (exists full_cloud s1 s2, derive_roi full_cloud (Fin (1 # 2)) s1 = (Ok r, s2)) /\
      exists c, last (native_calls s') = Some c /\
                nc_xoff c = roi_xoff r /\ nc_yoff c = roi_yoff r /\
                nc_xsize c = roi_xsize r /\ nc_ysize c = roi_ysize r /\
                nc_resolution c = Fin (1 # 2).
Proof.
  assert (Hrun : exists raster profile s',
            plyflatten_from_plyfiles_list idle_rasterize_cloud sample_reader
              sample_crs_from_ply sample_crs_proj sample_rasterio_crs
              ["two.ply"] (Fin (1 # 2)) 0 None None false empty_store
            = (Ok (raster, profile), s')).
  { eexists _, _, _. vm_compute. reflexivity. }
  destruct Hrun as (raster & profile & s' & Hrun).
  exists raster, profile, s'. split; [exact Hrun |].
  exact (profile_of_successful_call _ _ _ _ _ _ _ _ _ _ _ _ _ _ _ Hrun).
Defined.

(** * Further properties of the wrapper *)

(** ** Buffers of a call of [plyflatten] *)




(** ** A resolution that is zero, infinite or not-a-number *)







(** ** Clouds holding values that are not finite *)

Lemma getcol_rows (rows : list (list pyfloat)) (m j : nat) (a : ndarray) (s : state) :
  Forall (fun r => length r = m) rows ->
  (j < m)%nat ->
  shape a = [Z.of_nat (length rows); Z.of_nat m] ->
  heap s !! base a = Some (concat rows) ->
  getcol a j s = (Ok (map (fun r => nth j r (Fin 0)) rows), s).
Proof.
  intros Hrows Hj Hsh Hheap. unfold getcol. rewrite Hsh.
  assert (Hlt : (Z.of_nat j <? Z.of_nat m)%Z = true) by (apply Z.ltb_lt; lia).
  rewrite Hlt. unfold bind, load, ret. rewrite Hheap. simpl.
  rewrite !Nat2Z.id. do 2 f_equal.
  assert (E : forall i, (i * (m * 1) + j * 1 = i * m + j)%nat) by (intros; lia).
  erewrite flat_map_ext; [| intros i; rewrite E; reflexivity].
  change (concat rows) with ([] ++ concat rows).
  change (Z.to_nat 1) with 1%nat.
  apply (column_of_rows rows [] m j 0 (Fin 0)); [exact Hrows | exact Hj | reflexivity].
Qed.

Lemma fmin_NaN_r (a : pyfloat) : fmin a NaN = NaN.
Proof. destruct a; reflexivity. Qed.

Lemma fmax_NaN_r (a : pyfloat) : fmax a NaN = NaN.
Proof. destruct a; reflexivity. Qed.

Lemma fold_fmin_NaN (xs : list pyfloat) : fold_left fmin xs NaN = NaN.
Proof. induction xs as [| y xs IH]; simpl; [reflexivity | exact IH]. Qed.

Lemma fold_fmax_NaN (xs : list pyfloat) : fold_left fmax xs NaN = NaN.
Proof. induction xs as [| y xs IH]; simpl; [reflexivity | exact IH]. Qed.

Lemma fold_fmin_has_NaN (xs : list pyfloat) (x : pyfloat) :
  In NaN (x :: xs) -> fold_left fmin xs x = NaN.
Proof.
  revert x. induction xs as [| y xs IH]; intros x Hin; simpl.
  - destruct Hin as [-> | []]. reflexivity.
  - destruct Hin as [-> | [-> | Hin]].
    + apply fold_fmin_NaN.
    + rewrite fmin_NaN_r. apply fold_fmin_NaN.
    + apply IH. right. exact Hin.
Qed.

Lemma fold_fmax_has_NaN (xs : list pyfloat) (x : pyfloat) :
  In NaN (x :: xs) -> fold_left fmax xs x = NaN.
Proof.
  revert x. induction xs as [| y xs IH]; intros x Hin; simpl.
  - destruct Hin as [-> | []]. reflexivity.
  - destruct Hin as [-> | [-> | Hin]].
    + apply fold_fmax_NaN.
    + rewrite fmax_NaN_r. apply fold_fmax_NaN.
    + apply IH. right. exact Hin.
Qed.

Lemma np_amin_has_NaN (xs : list pyfloat) (s : state) :
  In NaN xs -> np_amin xs s = (Ok NaN, s).
Proof.
  destruct xs as [| x xs]; [intros [] |]. intros Hin.
  simpl. unfold ret. rewrite (fold_fmin_has_NaN xs x Hin). reflexivity.
Qed.

Lemma np_amax_has_NaN (xs : list pyfloat) (s : state) :
  In NaN xs -> np_amax xs s = (Ok NaN, s).
Proof.
  destruct xs as [| x xs]; [intros [] |]. intros Hin.
  simpl. unfold ret. rewrite (fold_fmax_has_NaN xs x Hin). reflexivity.
Qed.

Lemma np_amin_nonempty (xs : list pyfloat) (s : state) :
  xs <> [] -> exists v, np_amin xs s = (Ok v, s).
Proof. destruct xs; [congruence |]. intros _. eexists. reflexivity. Qed.

Lemma np_amax_nonempty (xs : list pyfloat) (s : state) :
  xs <> [] -> exists v, np_amax xs s = (Ok v, s).
Proof. destruct xs; [congruence |]. intros _. eexists. reflexivity. Qed.

Lemma py_int_cases (a : pyfloat) :
  (exists z, py_int a = Ok z) \/ py_int a = Err ValueError \/ py_int a = Err OverflowError.
Proof. destruct a; simpl; eauto. Qed.

(** X7: a cloud holding one point whose abscissa or ordinate is not-a-number
    has no derived region, whatever the resolution: [np.amin] and [np.amax]
    propagate the value up to [int], and the derivation fails, with ValueError
    when an abscissa is not-a-number, with ValueError or OverflowError when
    only an ordinate is.  The store is unchanged. *)
Theorem derive_roi_nan_coordinate (rows : list (list pyfloat)) (m : nat)
    (full_cloud : ndarray) (resolution : pyfloat) (s : state) :
  (2 <= m)%nat ->
  Forall (fun r => length r = m) rows ->
  shape full_cloud = [Z.of_nat (length rows); Z.of_nat m] ->
  heap s !! base full_cloud = Some (concat rows) ->
  (exists r, In r rows /\ (nth 0 r (Fin 0) = NaN \/ nth 1 r (Fin 0) = NaN)) ->
  (derive_roi full_cloud resolution s = (Err ValueError, s) \/
   derive_roi full_cloud resolution s = (Err OverflowError, s)) /\
  ((exists r, In r rows /\ nth 0 r (Fin 0) = NaN) ->
   derive_roi full_cloud resolution s = (Err ValueError, s)).
Proof.
  intros Hm Hrows Hsh Hheap (r0 & Hr0 & Hnan).
  set (xs := map (fun r => nth 0 r (Fin 0)) rows).
  set (ys := map (fun r => nth 1 r (Fin 0)) rows).
  assert (Hxs : xs <> []) by (destruct rows; [destruct Hr0 | discriminate]).
  assert (Hys : ys <> []) by (destruct rows; [destruct Hr0 | discriminate]).
  assert (Hx : In NaN xs -> derive_roi full_cloud resolution s = (Err ValueError, s)).
  { intros Hin. unfold derive_roi.
    rewrite (bind_ok _ _ _ _ _ (getcol_rows rows m 0 _ s Hrows ltac:(lia) Hsh Hheap)).
    rewrite (bind_ok _ _ _ _ _ (getcol_rows rows m 1 _ s Hrows ltac:(lia) Hsh Hheap)).
    fold xs ys.
    rewrite (bind_ok _ _ _ _ _ (np_amin_has_NaN xs s Hin)).
    rewrite (bind_ok _ _ _ _ _ (np_amax_has_NaN xs s Hin)).
    destruct (np_amin_nonempty ys s Hys) as [ymin Hymin].
    destruct (np_amax_nonempty ys s Hys) as [ymax Hymax].
    rewrite (bind_ok _ _ _ _ _ Hymin), (bind_ok _ _ _ _ _ Hymax).
    reflexivity. }
  assert (Hy : In NaN ys ->
               derive_roi full_cloud resolution s = (Err ValueError, s) \/
               derive_roi full_cloud resolution s = (Err OverflowError, s)).
  { intros Hin. unfold derive_roi.
    rewrite (bind_ok _ _ _ _ _ (getcol_rows rows m 0 _ s Hrows ltac:(lia) Hsh Hheap)).
    rewrite (bind_ok _ _ _ _ _ (getcol_rows rows m 1 _ s Hrows ltac:(lia) Hsh Hheap)).
    fold xs ys.
    destruct (np_amin_nonempty xs s Hxs) as [xmin Hxmin].
    destruct (np_amax_nonempty xs s Hxs) as [xmax Hxmax].
    rewrite (bind_ok _ _ _ _ _ Hxmin), (bind_ok _ _ _ _ _ Hxmax).
    rewrite (bind_ok _ _ _ _ _ (np_amin_has_NaN ys s Hin)).
    rewrite (bind_ok _ _ _ _ _ (np_amax_has_NaN ys s Hin)).
    cbv zeta. unfold bind at 1, lift at 1.
    destruct (py_int_cases (fadd (Fin 1)
                (ffloor (fdiv (fsub xmax (fmul (ffloor (fdiv xmin resolution)) resolution))
                              resolution)))) as [[z ->] | [-> | ->]];
      [left | left | right]; reflexivity. }
  split.
  - destruct Hnan as [E | E].
    + left. apply Hx. rewrite <- E. apply (in_map (fun r => nth 0 r (Fin 0))), Hr0.
    + apply Hy. rewrite <- E. apply (in_map (fun r => nth 1 r (Fin 0))), Hr0.
  - intros (r1 & Hr1 & E). apply Hx. rewrite <- E.
    apply (in_map (fun r => nth 0 r (Fin 0))), Hr1.
Qed.

Lemma derive_roi_nan_coordinate_witness :
  (derive_roi cloud4 (Fin 1) store4 = (Err ValueError, store4) \/
   derive_roi cloud4 (Fin 1) store4 = (Err OverflowError, store4)) /\
  ((exists r, In r nan_rows /\ nth 0 r (Fin 0) = NaN) ->
   derive_roi cloud4 (Fin 1) store4 = (Err ValueError, store4)).
Proof.
  apply (derive_roi_nan_coordinate nan_rows 3 cloud4 (Fin 1) store4).
  - lia.
  - repeat constructor.
  - reflexivity.
  - reflexivity.
  - eexists. split; [left; reflexivity | left; reflexivity].
Defined.

(** ** Runs of the entry point *)

Section ReadClouds.

Variable reader : string -> result (np_dtype * list Z * list pyfloat).

(** Reading one file and converting it: a float64 array of the shape read,
    over a buffer of its own holding the elements read. *)
Lemma read_one_run (path : string) (dt : np_dtype) (sh : list Z) (d : list pyfloat)
    (s : state) :
  reader path = Ok (dt, sh, d) ->
  exists a s0,
    (cloud_data <- read_cloud reader path ;; astype cloud_data float64) s = (Ok a, s0) /\
    native_calls s0 = native_calls s /\ heap s ⊆ heap s0 /\
    dtype a = float64 /\ shape a = sh /\ heap s0 !! base a = Some d.
Proof.
  intros Hread.
  set (l := fresh (dom (heap s))).
  set (s_a := mk_state (<[l := d]> (heap s)) (native_calls s) (argtypes s)).
  assert (Hfirst : read_cloud reader path s = (Ok (mk_ndarray l dt sh), s_a)).
  { unfold read_cloud. unfold bind at 1. unfold lift. rewrite Hread. reflexivity. }
  rewrite (bind_ok _ _ _ _ _ Hfirst), astype_run. cbn [base shape].
  assert (Hl : heap s_a !! l = Some d) by (subst s_a; cbn [heap]; apply lookup_insert_eq).
  rewrite Hl. cbn [default].
  eexists _, _. split; [reflexivity |]. cbn [native_calls heap base dtype shape].
  split; [reflexivity |].
  split.
  { etrans; [apply (insert_subseteq (heap s) l d), fresh_lookup_None |].
    apply (insert_subseteq (<[l := d]> (heap s))), fresh_lookup_None. }
  split; [reflexivity |]. split; [reflexivity |]. apply lookup_insert_eq.
Qed.

Lemma read_clouds_run (clouds_list : list string)
    (files : list (list Z * list pyfloat)) (s : state) :
  Forall2 (fun path f => exists dt, reader path = Ok (dt, f.1, f.2)) clouds_list files ->
  exists arrs s1,
    mapM (fun cloud => cloud_data <- read_cloud reader cloud ;;
                       astype cloud_data float64) clouds_list s = (Ok arrs, s1) /\
    native_calls s1 = native_calls s /\ heap s ⊆ heap s1 /\
    Forall2 (fun a f => dtype a = float64 /\ shape a = f.1 /\
                        heap s1 !! base a = Some f.2) arrs files.
Proof.
  intros Hall. revert s.
  induction Hall as [| path f l fs Hhd _ IH]; intros s.
  - exists [], s. split; [reflexivity |]. split; [reflexivity |].
    split; [reflexivity | constructor].
  - simpl in Hhd. destruct Hhd as [dt Hread]. simpl.
    destruct (read_one_run path dt f.1 f.2 s Hread)
      as (a & s0 & Hrun & Hcalls & Hsub & Hdt & Hsh & Hbuf).
    destruct (IH s0) as (arrs & s1 & Hrest & Hcalls1 & Hsub1 & Harrs).
    exists (a :: arrs), s1.
    rewrite (bind_ok _ _ _ _ _ Hrun), (bind_ok _ _ _ _ _ Hrest).
    split; [reflexivity |]. split; [congruence |].
    split; [etrans; eassumption |].
    constructor; [| exact Harrs].
    split; [exact Hdt |]. split; [exact Hsh |].
    exact (lookup_weaken _ _ _ _ Hbuf Hsub1).
Qed.

End ReadClouds.

(** ** Files that do not fit together *)

Lemma forallb_refutes {A} (f : A -> bool) (l : list A) (x : A) :
  In x l -> f x = false -> forallb f l = false.
Proof.
  induction l as [| y l IH]; intros Hin Hx; [destruct Hin |].
  cbn [forallb]. destruct Hin as [-> | Hin].
  - rewrite Hx. reflexivity.
  - rewrite (IH Hin Hx). apply andb_false_r.
Qed.

Lemma array_of_file (arrs : list ndarray) (files : list (list Z * list pyfloat))
    (h : gmap loc (list pyfloat)) (f : list Z * list pyfloat) :
  Forall2 (fun a f => dtype a = float64 /\ shape a = f.1 /\ h !! base a = Some f.2)
          arrs files ->
  In f files -> exists a, In a arrs /\ shape a = f.1.
Proof.
  induction 1 as [| a f' arrs files (_ & Hsh & _) _ IH]; intros Hin; [destruct Hin |].
  destruct Hin as [-> | Hin].
  - exists a. split; [left; reflexivity | exact Hsh].
  - destruct (IH Hin) as (a' & Ha' & Hsh'). exists a'. split; [right; exact Ha' | exact Hsh'].
Qed.

(** X10: files that do not fit together are refused before anything is
    rasterized: when all files are read, and the array of one of them differs
    from the array of the first file in its shape past the first axis (another
    number of columns, or of dimensions), the call fails with numpy's
    ValueError, whatever the other arguments, and the native routine is not
    called. *)
Theorem mismatched_files_raise (K : native_routine)
    (reader : string -> result (np_dtype * list Z * list pyfloat))
    (crs_from_ply : string -> result (pyvalue * pyvalue))
    (crs_proj : pyvalue -> pyvalue -> result pyvalue)
    (rasterio_crs : pyvalue -> result pyvalue)
    (clouds_list : list string) (f0 f : list Z * list pyfloat)
    (rest : list (list Z * list pyfloat)) (resolution : pyfloat) (radius : Z)
    (roi : option roi_t) (sigma : option pyfloat) (std : bool) (s : state) :
  Forall2 (fun path f => exists dt, reader path = Ok (dt, f.1, f.2))
          clouds_list (f0 :: rest) ->
  In f rest ->
  tail f.1 <> tail f0.1 ->
  let out := plyflatten_from_plyfiles_list K reader crs_from_ply crs_proj rasterio_crs
               clouds_list resolution radius roi sigma std s in
  fst out = Err ValueError /\ native_calls (snd out) = native_calls s.
Proof.
  intros Hread Hin Hdiff out. subst out. unfold plyflatten_from_plyfiles_list.
  destruct (read_clouds_run reader clouds_list (f0 :: rest) s Hread)
    as (arrs & s1 & Hrun1 & Hcalls1 & _ & Harrs).
  rewrite (bind_ok _ _ _ _ _ Hrun1).
  assert (Hcat : np_concatenate arrs s1 = (Err ValueError, s1)).
  { destruct (array_of_file arrs (f0 :: rest) (heap s1) f Harrs (or_intror Hin))
      as (a & Ha & Hsha).
    inversion Harrs as [| a0 f0' arest rest' (_ & Hsh0 & _) Hrest]; subst.
    unfold np_concatenate. destruct (shape a0) as [| n0 tl0] eqn:E0; [reflexivity |].
    rewrite (forallb_refutes _ (a0 :: arest) a Ha); [reflexivity |].
    apply bool_decide_eq_false_2. intros [Htl _].
    apply Hdiff. rewrite <- Hsha, <- Hsh0, Htl. reflexivity. }
  rewrite (bind_err _ _ _ _ _ Hcat). split; [reflexivity | exact Hcalls1].
Qed.

Lemma mismatched_files_raise_witness :
  let out := plyflatten_from_plyfiles_list idle_rasterize_cloud mixed_reader
               sample_crs_from_ply sample_crs_proj sample_rasterio_crs
               ["two.ply"; "flat.ply"] (Fin 1) 0 None None false empty_store in
  fst out = Err ValueError /\ native_calls (snd out) = native_calls empty_store.
Proof.
  apply (mismatched_files_raise idle_rasterize_cloud mixed_reader
           sample_crs_from_ply sample_crs_proj sample_rasterio_crs
           ["two.ply"; "flat.ply"]
           ([2; 3]%Z, table_data two_points) ([1; 2]%Z, [Fin 0; Fin 0])
           [([1; 2]%Z, [Fin 0; Fin 0])]).
  - repeat constructor; eexists; reflexivity.
  - left. reflexivity.
  - discriminate.
Defined.

(** ** What a call that returns has done *)

Lemma bind_stateless {A B} (m : M A) (k : A -> M B) :
  (forall s, snd (m s) = s) -> (forall a s, snd (k a s) = s) ->
  forall s, snd (bind m k s) = s.
Proof.
  intros Hm Hk s. unfold bind. specialize (Hm s).
  destruct (m s) as [[a | e] s1]; cbn [snd] in *; subst s1; [apply Hk | reflexivity].
Qed.

Lemma getcol_stateless (a : ndarray) (j : nat) (s : state) : snd (getcol a j s) = s.
Proof.
  unfold getcol. destruct (shape a) as [| n [| m rest]]; try reflexivity.
  destruct (Z.of_nat j <? m)%Z; reflexivity.
Qed.

Lemma np_amin_stateless (xs : list pyfloat) (s : state) : snd (np_amin xs s) = s.
Proof. destruct xs; reflexivity. Qed.

Lemma np_amax_stateless (xs : list pyfloat) (s : state) : snd (np_amax xs s) = s.
Proof. destruct xs; reflexivity. Qed.

(** The derivation of the region reads the cloud and changes nothing. *)
Lemma derive_roi_stateless (fc : ndarray) (resolution : pyfloat) (s : state) :
  snd (derive_roi fc resolution s) = s.
Proof.
  revert s. unfold derive_roi.
  apply bind_stateless; [apply getcol_stateless | intros xx].
  apply bind_stateless; [apply getcol_stateless | intros yy].
  apply bind_stateless; [apply np_amin_stateless | intros xmin].
  apply bind_stateless; [apply np_amax_stateless | intros xmax].
  apply bind_stateless; [apply np_amin_stateless | intros ymin].
  apply bind_stateless; [apply np_amax_stateless | intros ymax].
  cbv zeta.
  apply bind_stateless; [reflexivity | intros xsize].
  apply bind_stateless; [reflexivity | intros ysize].
  reflexivity.
Qed.

Section ReadCalls.

Variable reader : string -> result (np_dtype * list Z * list pyfloat).

Lemma read_clouds_calls (clouds_list : list string) (s : state) :
  native_calls
    (snd (mapM (fun cloud => cloud_data <- read_cloud reader cloud ;;
                             astype cloud_data float64) clouds_list s))
  = native_calls s.
Proof.
  revert s. induction clouds_list as [| path l IH]; intros s; [reflexivity |].
  cbn [mapM]. unfold bind at 1.
  assert (Hone : native_calls
                   (snd ((cloud_data <- read_cloud reader path ;;
                          astype cloud_data float64) s)) = native_calls s).
  { unfold read_cloud, bind, lift.
    destruct (reader path) as [[[dt sh] d] | e]; reflexivity. }
  destruct ((cloud_data <- read_cloud reader path ;; astype cloud_data float64) s)
    as [[a | e] s0]; cbn [snd] in Hone; [| exact Hone].
  unfold bind at 1. specialize (IH s0).
  destruct (mapM _ l s0) as [[bs | e] s1]; cbn [snd] in IH; unfold ret; cbn [snd];
    congruence.
Qed.

End ReadCalls.

Lemma np_concatenate_calls (arrs : list ndarray) (s : state) :
  native_calls (snd (np_concatenate arrs s)) = native_calls s.
Proof.
  unfold np_concatenate. destruct arrs as [| a0 rest]; [reflexivity |].
  destruct (shape a0) as [| n0 tl0]; [reflexivity |].
  destruct (forallb _ (a0 :: rest)); [| reflexivity].
  rewrite (bind_ok _ _ _ _ _ (mapM_load_run (a0 :: rest) s)). reflexivity.
Qed.

(** X12: the profile of a call that returns has exactly the six keys
    "tiled", "compress", "predictor", "nodata", "crs" and "transform", with
    [tiled = True], [compress = "deflate"], [predictor = 2], and as "crs" the
    coordinate system of the first file of the list alone, passed through
    [utils.crs_proj] and [utils.rasterio_crs]. *)
Theorem profile_entries (K : native_routine)
    (reader : string -> result (np_dtype * list Z * list pyfloat))
    (crs_from_ply : string -> result (pyvalue * pyvalue))
    (crs_proj : pyvalue -> pyvalue -> result pyvalue)
    (rasterio_crs : pyvalue -> result pyvalue)
    (clouds_list : list string) (resolution : pyfloat) (radius : Z)
    (roi : option roi_t) (sigma : option pyfloat) (std : bool)
    (s s' : state) (raster : ndarray) (profile : gmap string pyvalue) :
  plyflatten_from_plyfiles_list K reader crs_from_ply crs_proj rasterio_crs
    clouds_list resolution radius roi sigma std s = (Ok (raster, profile), s') ->
  exists (first : string) (cc : pyvalue * pyvalue) (p crs : pyvalue),
    head clouds_list = Some first /\
    crs_from_ply first = Ok cc /\ crs_proj cc.1 cc.2 = Ok p /\ rasterio_crs p = Ok crs /\
    profile !! "crs" = Some crs /\
    profile !! "tiled" = Some (VBool true) /\
    profile !! "compress" = Some (VStr "deflate") /\
    profile !! "predictor" = Some (VInt 2) /\
    dom profile
    = {[ "tiled"; "compress"; "predictor"; "nodata"; "crs"; "transform" ]}.
Proof.
  intros Hok. unfold plyflatten_from_plyfiles_list in Hok.
  apply bind_inv in Hok as (arrs & s1 & _ & Hok).
  apply bind_inv in Hok as (fc & s2 & _ & Hok).
  apply bind_inv in Hok as (r & s3 & _ & Hok).
  apply bind_inv in Hok as (fc' & s4 & _ & Hok).
  apply bind_inv in Hok as (ra & s5 & _ & Hok).
  apply bind_inv in Hok as (first & s6 & Hfirst & Hok).
  apply bind_inv in Hok as (cc & s7 & Hcc & Hok).
  apply bind_inv in Hok as (p & s8 & Hp & Hok).
  apply bind_inv in Hok as (crs & s9 & Hcrs & Hok).
  unfold ret in Hok. injection Hok as <- <- <-.
  apply lift_inv in Hcrs as [Hcrs _]. apply lift_inv in Hp as [Hp _].
  apply lift_inv in Hcc as [Hcc _].
  exists first, cc, p, crs.
  split.
  { destruct clouds_list as [| c0 cl]; [discriminate |].
    injection Hfirst as -> _. reflexivity. }
  split; [exact Hcc |]. split; [exact Hp |]. split; [exact Hcrs |].
  split; [reflexivity |]. split; [reflexivity |]. split; [reflexivity |].
  split; [reflexivity |].
  rewrite !dom_insert_L, dom_empty_L. set_solver.
Qed.

Lemma profile_entries_witness :
  exists (raster : ndarray) (profile : gmap string pyvalue) (s' : state),
    plyflatten_from_plyfiles_list idle_rasterize_cloud sample_reader
      sample_crs_from_ply sample_crs_proj sample_rasterio_crs
      ["two.ply"; "none.ply"] (Fin (1 # 2)) 0 None None false empty_store
    = (Ok (raster, profile), s') /\
    exists (first : string) (cc : pyvalue * pyvalue) (p crs : pyvalue),
      head ["two.ply"; "none.ply"] = Some first /\
      sample_crs_from_ply first = Ok cc /\ sample_crs_proj cc.1 cc.2 = Ok p /\
      sample_rasterio_crs p = Ok crs /\
      profile !! "crs" = Some crs /\
      profile !! "tiled" = Some (VBool true) /\
      profile !! "compress" = Some (VStr "deflate") /\
      profile !! "predictor" = Some (VInt 2) /\
      dom profile
      = {[ "tiled"; "compress"; "predictor"; "nodata"; "crs"; "transform" ]}.
Proof.
  assert (Hrun : exists raster profile s',
            plyflatten_from_plyfiles_list idle_rasterize_cloud sample_reader
              sample_crs_from_ply sample_crs_proj sample_rasterio_crs
              ["two.ply"; "none.ply"] (Fin (1 # 2)) 0 None None false empty_store
            = (Ok (raster, profile), s')).
  { eexists _, _, _. vm_compute. reflexivity. }
  destruct Hrun as (raster & profile & s' & Hrun).
  exists raster, profile, s'. split; [exact Hrun |].
  exact (profile_entries _ _ _ _ _ _ _ _ _ _ _ _ _ _ _ Hrun).
Defined.

(** ** The order of the steps of the entry point *)

(** X13: the coordinate system is looked up last.  When a call returns, the
    same call made with a lookup that fails on the first file fails with the
    exception of the lookup, and ends in the very state of the call that
    returned: the files were read and the native routine was run before the
    failure was met. *)
Theorem crs_failure_comes_last (K : native_routine)
    (reader : string -> result (np_dtype * list Z * list pyfloat))
    (crs_from_ply crs_from_ply' : string -> result (pyvalue * pyvalue))
    (crs_proj crs_proj' : pyvalue -> pyvalue -> result pyvalue)
    (rasterio_crs rasterio_crs' : pyvalue -> result pyvalue)
    (clouds_list : list string) (resolution : pyfloat) (radius : Z)
    (roi : option roi_t) (sigma : option pyfloat) (std : bool)
    (s s' : state) (raster : ndarray) (profile : gmap string pyvalue)
    (first : string) (e : exn) :
  plyflatten_from_plyfiles_list K reader crs_from_ply crs_proj rasterio_crs
    clouds_list resolution radius roi sigma std s = (Ok (raster, profile), s') ->
  head clouds_list = Some first ->
  crs_from_ply' first = Err e ->
  plyflatten_from_plyfiles_list K reader crs_from_ply' crs_proj' rasterio_crs'
    clouds_list resolution radius roi sigma std s = (Err e, s') /\
  native_calls s' <> native_calls s.
Proof.
  intros Hok Hhead Hfail. unfold plyflatten_from_plyfiles_list in Hok.
  apply bind_inv in Hok as (arrs & s1 & Hread & Hok).
  apply bind_inv in Hok as (fc & s2 & Hcat & Hok).
  apply bind_inv in Hok as (r & s3 & Hroi & Hok).
  apply bind_inv in Hok as (fc' & s4 & Hcopy & Hok).
  apply bind_inv in Hok as (ra & s5 & Hfl & Hok).
  apply bind_inv in Hok as (first' & s6 & Hfirst & Hok).
  apply bind_inv in Hok as (cc & s7 & Hcc & Hok).
  apply bind_inv in Hok as (p & s8 & Hp & Hok).
  apply bind_inv in Hok as (crs & s9 & Hcrs & Hok).
  unfold ret in Hok. injection Hok as <- <- <-.
  apply lift_inv in Hcrs as [_ ->]. apply lift_inv in Hp as [_ ->].
  apply lift_inv in Hcc as [_ ->].
  assert (Hsame : first' = first /\ s6 = s5).
  { destruct clouds_list as [| c0 cl]; [discriminate |].
    injection Hfirst as <- <-. injection Hhead as <-. auto. }
  destruct Hsame as [-> ->].
  split.
  - unfold plyflatten_from_plyfiles_list.
    rewrite (bind_ok _ _ _ _ _ Hread), (bind_ok _ _ _ _ _ Hcat), (bind_ok _ _ _ _ _ Hroi),
      (bind_ok _ _ _ _ _ Hcopy), (bind_ok _ _ _ _ _ Hfl), (bind_ok _ _ _ _ _ Hfirst).
    unfold bind at 1, lift at 1. rewrite Hfail. reflexivity.
  - assert (C1 : native_calls s1 = native_calls s).
    { rewrite <- (read_clouds_calls reader clouds_list s), Hread. reflexivity. }
    assert (C2 : native_calls s2 = native_calls s1).
    { rewrite <- (np_concatenate_calls arrs s1), Hcat. reflexivity. }
    assert (C3 : s3 = s2).
    { destruct roi as [r0 |].
      - injection Hroi as _ <-. reflexivity.
      - rewrite <- (derive_roi_stateless fc resolution s2), Hroi. reflexivity. }
    assert (C4 : native_calls s4 = native_calls s3).
    { unfold np_copy in Hcopy. rewrite astype_run in Hcopy.
      injection Hcopy as _ <-. reflexivity. }
    destruct (plyflatten_ok_inv _ _ _ _ _ _ _ _ _ _ _ _ _ Hfl) as (_ & r0 & c & _ & Hcalls & _).
    rewrite Hcalls, C4, C3, C2, C1. intros E.
    apply (f_equal (@length native_call)) in E. rewrite length_app in E. simpl in E. lia.
Qed.

Lemma crs_failure_comes_last_witness :
  exists (s' : state),
    plyflatten_from_plyfiles_list idle_rasterize_cloud sample_reader
      failing_crs_from_ply sample_crs_proj sample_rasterio_crs
      ["two.ply"] (Fin (1 # 2)) 0 None None false empty_store
    = (Err (OtherException "KeyError"), s') /\
    native_calls s' <> native_calls empty_store.
Proof.
  assert (Hrun : exists raster profile s',
            plyflatten_from_plyfiles_list idle_rasterize_cloud sample_reader
              sample_crs_from_ply sample_crs_proj sample_rasterio_crs
              ["two.ply"] (Fin (1 # 2)) 0 None None false empty_store
            = (Ok (raster, profile), s')).
  { eexists _, _, _. vm_compute. reflexivity. }
  destruct Hrun as (raster & profile & s' & Hrun).
  exists s'.
  exact (crs_failure_comes_last _ _ _ failing_crs_from_ply _ sample_crs_proj _
           sample_rasterio_crs _ _ _ _ _ _ _ _ _ _ "two.ply" _ Hrun eq_refl eq_refl).
Defined.

(** The array a call returns has the two sizes it was asked for. *)
Lemma plyflatten_outcome_shape (K : native_routine) (cloud : ndarray)
    (xoff yoff resolution : pyfloat) (xsize ysize radius : Z) (sigma : pyfloat)
    (std : bool) (s s' : state) (a : ndarray) :
  plyflatten K cloud xoff yoff resolution xsize ysize radius sigma std s = (Ok a, s') ->
  exists k, shape a = [ysize; xsize; k].
Proof.
  intros Hok.
  destruct (plyflatten_cases K cloud xoff yoff resolution xsize ysize radius sigma std s)
    as [(e & s0 & Hrun & _) | (n & m & E0 & E1 & Hz)].
  - rewrite Hrun in Hok. discriminate.
  - destruct (plyflatten_run K cloud n m xoff yoff resolution xsize ysize radius sigma
                std s E0 E1 Hz) as (l1 & l2 & l3 & s1 & Hrun & _).
    cbv zeta in Hrun. rewrite Hrun in Hok.
    simpl in Hz. rewrite !andb_true_iff, !Z.leb_le in Hz.
    destruct (Z_lt_le_dec xsize 0) as [Hx | Hx].
    { rewrite reshape_refused in Hok; [discriminate | lia ..]. }
    destruct (Z_lt_le_dec ysize 0) as [Hy | Hy].
    { rewrite reshape_refused in Hok; [discriminate | lia ..]. }
    rewrite reshape_ok in Hok by lia.
    destruct std; [discriminate |].
    injection Hok as <- _. exists (m - 2)%Z. reflexivity.
Qed.

(** X14: a call without a region of interest is the call with the region it
    derives.  When a call with [roi=None] returns, there is a region which,
    supplied as [roi], gives the same raster, the same profile and the same
    final state; its origin is the one of the profile's transform, and its
    sizes are the first two dimensions of the raster. *)
Theorem derived_roi_can_be_supplied (K : native_routine)
    (reader : string -> result (np_dtype * list Z * list pyfloat))
    (crs_from_ply : string -> result (pyvalue * pyvalue))
    (crs_proj : pyvalue -> pyvalue -> result pyvalue)
    (rasterio_crs : pyvalue -> result pyvalue)
    (clouds_list : list string) (resolution : pyfloat) (radius : Z)
    (sigma : option pyfloat) (std : bool)
    (s s' : state) (raster : ndarray) (profile : gmap string pyvalue) :
  plyflatten_from_plyfiles_list K reader crs_from_ply crs_proj rasterio_crs
    clouds_list resolution radius None sigma std s = (Ok (raster, profile), s') ->
  exists (r : roi_t) (k : Z),
    plyflatten_from_plyfiles_list K reader crs_from_ply crs_proj rasterio_crs
      clouds_list resolution radius (Some r) sigma std s = (Ok (raster, profile), s') /\
    profile !! "transform"
      = Some (VAffine resolution (Fin 0) (roi_xoff r) (Fin 0) (fneg resolution) (roi_yoff r)) /\
    shape raster = [roi_ysize r; roi_xsize r; k].
Proof.
  intros Hok. assert (Hok' := Hok). unfold plyflatten_from_plyfiles_list in Hok.
  apply bind_inv in Hok as (arrs & s1 & Hread & Hok).
  apply bind_inv in Hok as (fc & s2 & Hcat & Hok).
  apply bind_inv in Hok as (r & s3 & Hroi & Hok).
  apply bind_inv in Hok as (fc' & s4 & Hcopy & Hok).
  apply bind_inv in Hok as (ra & s5 & Hfl & Hok).
  apply bind_inv in Hok as (first' & s6 & Hfirst & Hok).
  apply bind_inv in Hok as (cc & s7 & Hcc & Hok).
  apply bind_inv in Hok as (p & s8 & Hp & Hok).
  apply bind_inv in Hok as (crs & s9 & Hcrs & Hok).
  unfold ret in Hok. injection Hok as <- <- <-.
  assert (C3 : s3 = s2).
  { rewrite <- (derive_roi_stateless fc resolution s2), Hroi. reflexivity. }
  subst s3.
  destruct (plyflatten_outcome_shape _ _ _ _ _ _ _ _ _ _ _ _ _ Hfl) as [k Hk].
  exists r, k.
  split; [| split; [reflexivity | exact Hk]].
  rewrite <- Hok'. unfold plyflatten_from_plyfiles_list.
  rewrite !(bind_ok _ _ _ _ _ Hread), !(bind_ok _ _ _ _ _ Hcat).
  rewrite (bind_ok _ _ _ _ _ Hroi).
  unfold bind at 1. unfold ret at 1. reflexivity.
Qed.

Lemma derived_roi_can_be_supplied_witness :
  exists (raster : ndarray) (profile : gmap string pyvalue) (s' : state),
    plyflatten_from_plyfiles_list idle_rasterize_cloud sample_reader
      sample_crs_from_ply sample_crs_proj sample_rasterio_crs
      ["two.ply"] (Fin (1 # 2)) 0 None None false empty_store
    = (Ok (raster, profile), s') /\
    exists (r : roi_t) (k : Z),
      plyflatten_from_plyfiles_list idle_rasterize_cloud sample_reader
        sample_crs_from_ply sample_crs_proj sample_rasterio_crs
        ["two.ply"] (Fin (1 # 2)) 0 (Some r) None false empty_store
      = (Ok (raster, profile), s') /\
      profile !! "transform"
        = Some (VAffine (Fin (1 # 2)) (Fin 0) (roi_xoff r) (Fin 0)
                        (fneg (Fin (1 # 2))) (roi_yoff r)) /\
      shape raster = [roi_ysize r; roi_xsize r; k].
Proof.
  assert (Hrun : exists raster profile s',
            plyflatten_from_plyfiles_list idle_rasterize_cloud sample_reader
              sample_crs_from_ply sample_crs_proj sample_rasterio_crs
              ["two.ply"] (Fin (1 # 2)) 0 None None false empty_store
            = (Ok (raster, profile), s')).
  { eexists _, _, _. vm_compute. reflexivity. }
  destruct Hrun as (raster & profile & s' & Hrun).
  exists raster, profile, s'. split; [exact Hrun |].
  exact (derived_roi_can_be_supplied _ _ _ _ _ _ _ _ _ _ _ _ _ _ Hrun).
Defined.

(** ** The outcome of a call of [plyflatten], and what the C routine receives *)





(** The conversions at work: a size of [2^31] reaches the C routine as
    [-2^31], and a [sigma] of one tenth as the float nearest to it. *)
Example c_arguments_of_large_values :
  let c := mk_native_call cloud1 cloud1 cloud1 1 1 (Fin 0) (Fin 1) (Fin 1)
             (2 ^ 31) 1 0 (Fin (double (1 # 10))) in
  cc_xsize (c_arguments c) = (- 2 ^ 31)%Z /\
  cc_sigma (c_arguments c) = Fin (13421773 # 134217728) /\
  nc_sigma c = Fin (3602879701896397 # 36028797018963968).
Proof. vm_compute. auto. Qed.


